(** * AR/VR Surgery Research Extractor: a shallow embedding of [app.py]

    The program is a linear pipeline: PDF bytes -> text -> prompt -> model
    response -> three parsed fields -> one spreadsheet row.  Python [str]
    values are modelled as lists of Unicode code points, the [info] dict of
    [parse_response] as a record with its three fixed keys, and the effects
    of the pipeline (Streamlit output, the call to the model, the rows of
    the spreadsheet) as a state monad over an explicit [world]. *)

From Stdlib Require Import List NArith Arith Bool Lia String Ascii.
From ExtLib Require Import Structures.Monad Structures.MonadState.
From ExtLib Require Import Data.Monads.StateMonad.
Import ListNotations.
Import MonadNotation.
Local Open Scope monad_scope.
Local Open Scope list_scope.

(* ===================================================================== *)
(** ** Python strings *)
(* ===================================================================== *)

(** A Python [str] is a sequence of code points. *)
Definition char := N.
Definition str := list char.

(** An ASCII literal of the source, as a [str]. *)
Definition py (s : string) : str := map N_of_ascii (list_ascii_of_string s).
Arguments py s%_string.

Definition NL : char := 10%N.
Definition SP : char := 32%N.
Definition DASH : char := 45%N.

(** [a == b] *)
Fixpoint str_eqb (a b : str) : bool :=
  match a, b with
  | [], [] => true
  | x :: a', y :: b' => N.eqb x y && str_eqb a' b'
  | _, _ => false
  end.

(** [str.isspace] for one code point: the characters [str.strip()]
    removes (CPython's [_PyUnicode_IsWhitespace]). *)
Definition isspace (c : char) : bool :=
  ((9 <=? c) && (c <=? 13) || (28 <=? c) && (c <=? 32)
   || (c =? 133) || (c =? 160) || (c =? 5760)
   || (8192 <=? c) && (c <=? 8202)
   || (c =? 8232) || (c =? 8233) || (c =? 8239) || (c =? 8287)
   || (c =? 12288))%N.

Fixpoint lstrip (s : str) : str :=
  match s with
  | c :: s' => if isspace c then lstrip s' else s
  | [] => []
  end.

Definition rstrip (s : str) : str := rev (lstrip (rev s)).

(** [s.strip()] *)
Definition strip (s : str) : str := rstrip (lstrip s).

(** [s.startswith(p)] *)
Fixpoint startswith (p s : str) : bool :=
  match p, s with
  | [], _ => true
  | a :: p', b :: s' => N.eqb a b && startswith p' s'
  | _ :: _, [] => false
  end.

(** [needle in hay] *)
Fixpoint str_in (needle hay : str) : bool :=
  startswith needle hay ||
  match hay with
  | [] => false
  | _ :: hay' => str_in needle hay'
  end.

(** [hay.find(needle)], with [None] for -1 *)
Fixpoint str_find (needle hay : str) : option nat :=
  if startswith needle hay then Some 0
  else match hay with
       | [] => None
       | _ :: hay' => option_map S (str_find needle hay')
       end.

(** [s.split(sep)] for a one-character separator: never returns the empty
    list, and an input without the separator comes back as one piece. *)
Fixpoint str_split (sep : char) (s : str) : list str :=
  match s with
  | [] => [[]]
  | c :: s' =>
      if N.eqb c sep then [] :: str_split sep s'
      else match str_split sep s' with
           | piece :: pieces => (c :: piece) :: pieces
           | [] => [[c]]
           end
  end.

(** [sep.join(parts)] *)
Fixpoint str_join (sep : str) (parts : list str) : str :=
  match parts with
  | [] => []
  | [p] => p
  | p :: rest => p ++ sep ++ str_join sep rest
  end.

(** [s[:n]] *)
Definition slice_to (n : N) (s : str) : str := firstn (N.to_nat n) s.

(* ===================================================================== *)
(** ** Response parsing: [parse_response] *)
(* ===================================================================== *)

(** The three keys of the [info] dict, and [current_key], which is one of
    them or [None].  The dict never gains or loses a key, so it is a
    record of the three values. *)
Inductive key := Ksolutions | Kto_solve | Kpps.

(** The key as the source spells it. *)
Definition key_name (k : key) : str :=
  match k with
  | Ksolutions => py "solutions"
  | Kto_solve => py "to_solve"
  | Kpps => py "pps"
  end.

Record info := mkInfo { solutions : str; to_solve : str; pps : str }.

(** [info[k]] *)
Definition lookup (i : info) (k : key) : str :=
  match k with
  | Ksolutions => solutions i
  | Kto_solve => to_solve i
  | Kpps => pps i
  end.

(** [info[k] += s] *)
Definition append_to (i : info) (k : key) (s : str) : info :=
  match k with
  | Ksolutions => mkInfo (solutions i ++ s) (to_solve i) (pps i)
  | Kto_solve => mkInfo (solutions i) (to_solve i ++ s) (pps i)
  | Kpps => mkInfo (solutions i) (to_solve i) (pps i ++ s)
  end.

Definition hdr_solutions : str := py "Existing AR/VR Solutions".
Definition hdr_to_solve : str := py "Problems to be Solved".
Definition hdr_pps : str := py "Proposed Problem Statement".

(** The initial [info] dict. *)
Definition empty_info : info := mkInfo [] [] [].

(** One iteration of the [for line in ...] loop, on the loop state
    [(info, current_key)]. *)
Definition parse_line (st : info * option key) (line : str) : info * option key :=
  let (i, current_key) := st in
  if str_in hdr_solutions line then (i, Some Ksolutions)
  else if str_in hdr_to_solve line then (i, Some Kto_solve)
  else if str_in hdr_pps line then (i, Some Kpps)
  else match current_key with
       | Some Kpps => (append_to i Kpps (strip line ++ [SP]), current_key)
       | Some k =>
           if startswith [DASH] (strip line)
           then (append_to i k (strip line ++ [NL]), current_key)
           else st
       | None => st
       end.

(** The loop over a list of lines. *)
Definition parse_lines (lines : list str) (st : info * option key) : info * option key :=
  fold_left parse_line lines st.

Definition parse_response (response_text : str) : info :=
  fst (parse_lines (str_split NL response_text) (empty_info, None)).

(* ===================================================================== *)
(** ** Summarization request: the prompt of [extract_info_with_gemini] *)
(* ===================================================================== *)

Definition EN_DASH : char := 8211%N.

(** The lines of the f-string before the interpolated text.  The literal
    opens with a newline, hence the empty first line. *)
Definition prompt_template : list str :=
  [ [];
    py "You are an AI assistant helping a team building an AR/VR solution for performing surgeries.";
    [];
    py "From the document below, extract and summarize:";
    [];
    py "1. **Existing AR/VR Solutions in Surgery** " ++ [EN_DASH]
      ++ py " Any tools, systems, or research already using AR/VR for surgical training, planning, or execution.";
    [];
    py "2. **Problems to be Solved** " ++ [EN_DASH]
      ++ py " Gaps, limitations, or open challenges in the field that need to be addressed.";
    [];
    py "3. **Proposed Problem Statement** " ++ [EN_DASH]
      ++ py " Based on these gaps, suggest a clear and concise problem statement that an AR/VR-based surgical solution could address.";
    [];
    py "Format exactly like this:";
    [];
    py "Existing AR/VR Solutions:";
    py "- ...";
    [];
    py "Problems to be Solved:";
    py "- ...";
    [];
    py "Proposed Problem Statement:";
    py "...";
    [];
    py "TEXT:" ].

(** Everything of the prompt that precedes [{text[:30000]}]. *)
Definition prompt_head : str := str_join [NL] prompt_template ++ [NL].

(** The character budget of [text[:30000]]. *)
Definition MAX_CHARS : N := 30000%N.

(** The value of the local [prompt]: the template, the leading slice of
    the text, and the newline that closes the literal. *)
Definition build_prompt (text : str) : str :=
  prompt_head ++ slice_to MAX_CHARS text ++ [NL].

(* ===================================================================== *)
(** ** Timestamps: [datetime.now().strftime("%Y-%m-%d %H:%M:%S")] *)
(* ===================================================================== *)

Record datetime := mkDatetime {
  year : N; month : N; day : N;
  hour : N; minute : N; second : N
}.

(** The ranges the [datetime] class enforces, with the year of a wall
    clock reading (four digits). *)
Definition valid_datetime (d : datetime) : Prop :=
  (1000 <= year d <= 9999 /\ 1 <= month d <= 12 /\ 1 <= day d <= 31
   /\ hour d <= 23 /\ minute d <= 59 /\ second d <= 59)%N.

Fixpoint uint_chars (u : Decimal.uint) : str :=
  match u with
  | Decimal.Nil => []
  | Decimal.D0 u => 48%N :: uint_chars u
  | Decimal.D1 u => 49%N :: uint_chars u
  | Decimal.D2 u => 50%N :: uint_chars u
  | Decimal.D3 u => 51%N :: uint_chars u
  | Decimal.D4 u => 52%N :: uint_chars u
  | Decimal.D5 u => 53%N :: uint_chars u
  | Decimal.D6 u => 54%N :: uint_chars u
  | Decimal.D7 u => 55%N :: uint_chars u
  | Decimal.D8 u => 56%N :: uint_chars u
  | Decimal.D9 u => 57%N :: uint_chars u
  end.

(** [str(n)] *)
Definition str_of_N (n : N) : str := uint_chars (N.to_uint n).

(** Zero padding on the left up to [width] characters. *)
Definition zfill (width : nat) (s : str) : str :=
  repeat 48%N (width - List.length s) ++ s.

(** [d.strftime("%Y-%m-%d %H:%M:%S")]: the year on four digits (the C
    libraries differ only below the year 1000), the other fields on two. *)
Definition strftime (d : datetime) : str :=
  zfill 4 (str_of_N (year d)) ++ [DASH] ++ zfill 2 (str_of_N (month d))
  ++ [DASH] ++ zfill 2 (str_of_N (day d)) ++ [SP]
  ++ zfill 2 (str_of_N (hour d)) ++ py ":" ++ zfill 2 (str_of_N (minute d))
  ++ py ":" ++ zfill 2 (str_of_N (second d)).

Definition isdigit (c : char) : bool := ((48 <=? c) && (c <=? 57))%N.

(** The shape [YYYY-MM-DD HH:MM:SS], as a checker. *)
Definition is_timestamp (s : str) : bool :=
  match s with
  | [y1; y2; y3; y4; d1; m1; m2; d2; a1; a2; sp; h1; h2; c1; n1; n2; c2; s1; s2] =>
      forallb isdigit [y1; y2; y3; y4; m1; m2; a1; a2; h1; h2; n1; n2; s1; s2]
      && N.eqb d1 DASH && N.eqb d2 DASH && N.eqb sp SP
      && N.eqb c1 58%N && N.eqb c2 58%N
  | _ => false
  end.

(* ===================================================================== *)
(** ** The world of one run: screen, model, spreadsheets, clock *)
(* ===================================================================== *)

(** What a call into a library yields inside a [try]: its value, or an
    exception with its message [str(e)]. *)
Inductive result (A : Type) : Type :=
| Ok (a : A)
| Raise (msg : str).
Arguments Ok {A} a.
Arguments Raise {A} msg.

(** The Streamlit elements the program writes, in the order written. *)
Inductive widget :=
| Header (s : str)
| Subheader (s : str)
| Success (s : str)
| Error (s : str)
| InfoBox (s : str)
| TextArea (label value : str)
| Columns (n : nat)
| Balloons
| Progress (percent : nat)     (* st.progress / progress_bar.progress *)
| Placeholder                  (* st.empty() *)
| StatusText (s : str)         (* status_text.text *)
| ProgressEmpty                (* progress_bar.empty() *)
| StatusEmpty.                 (* status_text.empty() *)

(** A worksheet handle: [sheet1] of the spreadsheet of that title. *)
Definition worksheet := str.
Definition row := list str.

Record world := mkWorld {
  screen : list widget;            (* rendered so far *)
  model_calls : list str;          (* prompts sent to generate_content *)
  spreadsheets : worksheet -> list row;   (* rows of each worksheet *)
  clock : datetime                 (* what datetime.now() reads *)
}.

(** The external collaborators, as functions of their inputs. *)
Record services := mkServices {
  (* tempfile + fitz.open + page.get_text() of every page, in order *)
  fitz_pages : list Byte.byte -> result (list str);
  (* genai: api key and prompt to response.text *)
  generate_content : str -> str -> result str;
  (* gspread: authorize and client.open(name).sheet1 *)
  gspread_open : list (str * str) -> str -> result worksheet;
  (* gspread: whether sheet.append_row(values) goes through *)
  gspread_append : worksheet -> row -> result unit;
  (* os.path.splitext(name)[0] *)
  splitext_root : str -> str;
  (* streamlit: str(e) of the error raised for a second st.text_area with
     the label, value and height of an earlier one of the run *)
  duplicate_element_error : str -> str;
  (* the reading of datetime.now() that follows a given reading *)
  next_reading : datetime -> datetime
}.

(** The module-level configuration read by [main]. *)
Record config := mkConfig {
  gemini_api_key : str;
  service_account_data : list (str * str);
  spreadsheet_name : str;
  document_base_link : str
}.

Definition M := state world.

Definition render (x : widget) : M unit :=
  w <- get ;;
  put (mkWorld (screen w ++ [x]) (model_calls w) (spreadsheets w) (clock w)).

(** The model receives a prompt. *)
Definition send_prompt (prompt : str) : M unit :=
  w <- get ;;
  put (mkWorld (screen w) (model_calls w ++ [prompt]) (spreadsheets w) (clock w)).

(** [sheet.append_row(values)] on the spreadsheet's side. *)
Definition append_row (sheet : worksheet) (values : row) : M unit :=
  w <- get ;;
  put (mkWorld (screen w) (model_calls w)
         (fun s => if str_eqb s sheet then spreadsheets w s ++ [values]
                   else spreadsheets w s)
         (clock w)).

(* ===================================================================== *)
(** ** The stages *)
(* ===================================================================== *)

Section Pipeline.

Variable sv : services.

(** [datetime.now()]: the reading of the clock; the next reading is a
    later one. *)
Definition now : M datetime :=
  w <- get ;;
  put (mkWorld (screen w) (model_calls w) (spreadsheets w)
               (next_reading sv (clock w))) ;;
  ret (clock w).

(** [st.cache_data] memoizes the function on its argument; the decoder
    being a function of the bytes, the cached and the fresh call agree. *)
Definition read_pdf_text (pdf_bytes : list Byte.byte) : M (option str) :=
  match fitz_pages sv pdf_bytes with
  | Ok pages => ret (Some (str_join [NL] pages))
  | Raise e => render (Error (py "Error reading PDF: " ++ e)) ;; ret None
  end.

(** The model is handed the prompt, then answers or raises. *)
Definition extract_info_with_gemini (text api_key : str) : M (option str) :=
  let prompt := build_prompt text in
  send_prompt prompt ;;
  match generate_content sv api_key prompt with
  | Ok response_text => ret (Some response_text)
  | Raise e => render (Error (py "Error with Gemini AI: " ++ e)) ;; ret None
  end.

Definition setup_google_sheets (account : list (str * str)) (name : str)
  : M (option worksheet) :=
  match gspread_open sv account name with
  | Ok sheet => ret (Some sheet)
  | Raise e => render (Error (py "Error setting up Google Sheets: " ++ e)) ;; ret None
  end.

(** The list handed to [append_row]. *)
Definition sheet_row (i : info) (pdf_name document_link timestamp : str) : row :=
  [ pdf_name; document_link;
    strip (pps i); strip (solutions i); strip (to_solve i);
    timestamp ].

Definition update_sheet (sheet : worksheet) (i : info) (pdf_name document_link : str)
  : M bool :=
  d <- now ;;
  let timestamp := strftime d in
  let values := sheet_row i pdf_name document_link timestamp in
  match gspread_append sv sheet values with
  | Ok _ => append_row sheet values ;; ret true
  | Raise e => render (Error (py "Error updating sheet: " ++ e)) ;; ret false
  end.

(** What the user did in this rerun of the script: the uploaded file (name
    and content), and whether the process button was clicked. *)
Record ui_input := mkInput {
  uploaded_file : option (str * list Byte.byte);
  button : bool
}.

Variable cfg : config.

(** [st.text_area("", value, height=200, disabled=True)].  The three calls
    of [main] give no key, so Streamlit identifies each element by its
    label, value and height, which differ in the value only: a value equal
    to the value of an [earlier] text area of the run raises, and nothing
    is rendered. *)
Definition text_area (earlier : list str) (value : str) : M (result unit) :=
  if existsb (str_eqb value) earlier
  then ret (Raise (duplicate_element_error sv value))
  else render (TextArea [] value) ;; ret (Ok tt).

(** The success screen of [main]: lines 229 to 252.  An exception of the
    second or third text area leaves the screen as it is at that point. *)
Definition show_results (info_data : info) (pdf_name : str) : M (result unit) :=
  render (StatusText (127881%N :: py " Process completed successfully!")) ;;
  render Balloons ;;
  render (Header (128203%N :: py " Extracted Information")) ;;
  render (Columns 2) ;;
  render (Subheader (128295%N :: py " Existing AR/VR Solutions")) ;;
  r1 <- text_area [] (solutions info_data) ;;
  match r1 with
  | Raise e => ret (Raise e)
  | Ok _ =>
      render (Subheader (10067%N :: py " Problems to be Solved")) ;;
      r2 <- text_area [solutions info_data] (to_solve info_data) ;;
      match r2 with
      | Raise e => ret (Raise e)
      | Ok _ =>
          render (Subheader (128161%N :: py " Proposed Problem Statement")) ;;
          r3 <- text_area [solutions info_data; to_solve info_data] (pps info_data) ;;
          match r3 with
          | Raise e => ret (Raise e)
          | Ok _ =>
              render (Subheader (128196%N :: py " Document Info")) ;;
              render (InfoBox (py "**File Name:** " ++ pdf_name)) ;;
              (match document_base_link cfg with
               | [] => ret tt
               | _ :: _ =>
                   render (InfoBox (py "**Document Link:** " ++ document_base_link cfg))
               end) ;;
              d <- now ;;
              render (InfoBox (py "**Processed:** " ++ strftime d)) ;;
              ret (Ok tt)
          end
      end
  end.

(** [main].  The stages catch their own exceptions; of the calls made
    directly inside the outer [try], the text areas of the success screen
    are the ones taken to raise, and the handler of lines 257 to 260 then
    reports the error and clears the progress bar and the status line.  A
    value that fails [if not x] is [None] or the empty string.  The file
    uploader and the button are the inputs of the run, not elements it
    writes. *)
Definition main (inp : ui_input) : M unit :=
  render (Header (128196%N :: py " Upload PDF Document")) ;;
  match uploaded_file inp with
  | None => ret tt
  | Some (name, content) =>
      render (Success (9989%N :: py " File uploaded: " ++ name)) ;;
      let pdf_name := splitext_root sv name in
      if button inp then
        render (Progress 0) ;;
        render Placeholder ;;
        render (StatusText (128214%N :: py " Reading PDF content...")) ;;
        render (Progress 20) ;;
        pdf_text <- read_pdf_text content ;;
        match pdf_text with
        | None | Some [] => render (Error (py "Failed to extract text from PDF"))
        | Some pdf_text =>
            render (StatusText (129302%N :: py " Extracting information with AI...")) ;;
            render (Progress 40) ;;
            ai_response <- extract_info_with_gemini pdf_text (gemini_api_key cfg) ;;
            match ai_response with
            | None | Some [] =>
                render (Error (py "Failed to extract information with AI"))
            | Some ai_response =>
                render (StatusText (128221%N :: py " Parsing AI response...")) ;;
                render (Progress 60) ;;
                let info_data := parse_response ai_response in
                render (StatusText (128202%N :: py " Setting up Google Sheets...")) ;;
                render (Progress 80) ;;
                sheet <- setup_google_sheets (service_account_data cfg)
                                             (spreadsheet_name cfg) ;;
                match sheet with
                | None => render (Error (py "Failed to setup Google Sheets connection"))
                | Some sheet =>
                    render (StatusText (9989%N :: py " Updating Google Sheet...")) ;;
                    render (Progress 100) ;;
                    success <- update_sheet sheet info_data pdf_name
                                            (document_base_link cfg) ;;
                    if success : bool then
                      shown <- show_results info_data pdf_name ;;
                      match shown with
                      | Ok _ => ret tt
                      | Raise e =>
                          render (Error (py "An error occurred: " ++ e)) ;;
                          render ProgressEmpty ;;
                          render StatusEmpty
                      end
                    else render (StatusText (10060%N :: py " Failed to update Google Sheet"))
                end
            end
        end
      else ret tt
  end.

End Pipeline.

(* ===================================================================== *)
(** ** Vocabulary of the statements *)
(* ===================================================================== *)

(** [n] occurs in [h] as a contiguous run: what [str_in] decides. *)
Definition occurs_in (n h : str) : Prop := exists l r, h = l ++ n ++ r.

(** Which header test of [parse_line] a line passes first, if any. *)
Definition header_of (line : str) : option key :=
  if str_in hdr_solutions line then Some Ksolutions
  else if str_in hdr_to_solve line then Some Kto_solve
  else if str_in hdr_pps line then Some Kpps
  else None.

(** What a line that is no header adds to the field of the section [k] it
    lies in. *)
Definition piece (k : key) (line : str) : str :=
  match k with
  | Kpps => strip line ++ [SP]
  | _ => if startswith [DASH] (strip line) then strip line ++ [NL] else []
  end.

(** [current_key] after a run of lines, starting from [cur]. *)
Fixpoint section_of (cur : option key) (lines : list str) : option key :=
  match lines with
  | [] => cur
  | l :: ls =>
      match header_of l with
      | Some h => section_of (Some h) ls
      | None => section_of cur ls
      end
  end.

(** The text a run of lines adds to field [k], starting from [cur]. *)
Fixpoint emitted (k : key) (cur : option key) (lines : list str) : str :=
  match lines with
  | [] => []
  | l :: ls =>
      match header_of l with
      | Some h => emitted k (Some h) ls
      | None =>
          match cur with
          | Some c =>
              match k, c with
              | Ksolutions, Ksolutions | Kto_solve, Kto_solve | Kpps, Kpps =>
                  piece k l ++ emitted k cur ls
              | _, _ => emitted k cur ls
              end
          | None => emitted k cur ls
          end
      end
  end.

(** [s] ends with the character [c]; with exactly one [c]. *)
Definition ends_with (c : char) (s : str) : Prop := exists body, s = body ++ [c].

Definition ends_with_single (c : char) (s : str) : Prop :=
  exists body, s = body ++ [c] /\ ~ ends_with c body.

(** A string of exactly [width] decimal digits. *)
Definition all_digits (width : nat) (s : str) : bool :=
  Nat.eqb (List.length s) width && forallb isdigit s.

(** The numbers below [n]. *)
Definition N_below (n : N) : list N := map N.of_nat (seq 0 (N.to_nat n)).

(** A message for the duplicate element error, and a clock that gains a
    second between two readings (sample values for the collaborators). *)
Definition duplicate_text_area (value : str) : str :=
  py "There are multiple identical st.text_area widgets".

Definition one_second_later (d : datetime) : datetime :=
  mkDatetime (year d) (month d) (day d) (hour d) (minute d) (second d + 1).

(** A decoder that finds two pages, a model that answers in the format
    asked for, and a spreadsheet service that accepts the row. *)
Definition two_page_services : services :=
  mkServices
    (fun _ => Ok [py "AR guidance in liver surgery."; py "Latency remains an issue."])
    (fun _ _ =>
       Ok (str_join [NL]
             [py "Existing AR/VR Solutions:"; py "- AR guidance"; [];
              py "Problems to be Solved:"; py "- Latency"; [];
              py "Proposed Problem Statement:"; py "Reduce latency."]))
    (fun _ name => Ok name) (fun _ _ => Ok tt)
    (fun name => firstn (List.length name - 4) name)
             duplicate_text_area one_second_later.

(** The three header phrases. *)
Definition headers : list str := [hdr_solutions; hdr_to_solve; hdr_pps].

(** The loop state [parse_response] starts from. *)
Definition start : info * option key := (empty_info, None).

(** A line whose stripped form starts with the bullet marker. *)
Definition is_bullet (line : str) : bool := startswith [DASH] (strip line).

(** Sample collaborators: a decoder that finds one page without text, and
    one that rejects the buffer; the other services always succeed. *)
Definition blank_pdf_services : services :=
  mkServices (fun _ => Ok [[]]) (fun _ _ => Ok (py "Proposed Problem Statement: none"))
             (fun _ name => Ok name) (fun _ _ => Ok tt) (fun name => name)
             duplicate_text_area one_second_later.

Definition corrupt_pdf_services : services :=
  mkServices (fun _ => Raise (py "cannot open broken document"))
             (fun _ _ => Ok (py "Proposed Problem Statement: none"))
             (fun _ name => Ok name) (fun _ _ => Ok tt) (fun name => name)
             duplicate_text_area one_second_later.

Definition sample_config : config :=
  mkConfig (py "key") [] (py "VR-FOR-SURGERIES") [].

Definition sample_world : world :=
  mkWorld [] [] (fun _ => []) (mkDatetime 2024 3 7 9 5 0).

Definition sample_input : ui_input :=
  mkInput (Some (py "paper.pdf", [])) true.

(** The phrase that opens the section of key [k]. *)
Definition header_phrase (k : key) : str :=
  match k with
  | Ksolutions => hdr_solutions
  | Kto_solve => hdr_to_solve
  | Kpps => hdr_pps
  end.

(** The characters of a list of lines when joined with newlines, plus one. *)
Definition chars_with_newlines (lines : list str) : nat :=
  list_sum (map (fun l => S (List.length l)) lines).

(** [st.error] elements, and the values shown by the progress bar. *)
Definition is_error (x : widget) : bool :=
  match x with Error _ => true | _ => false end.

Definition progress_values (xs : list widget) : list nat :=
  flat_map (fun x => match x with Progress n => [n] | _ => [] end) xs.

(** The same world at another time of day. *)
Definition with_clock (d : datetime) (w : world) : world :=
  mkWorld (screen w) (model_calls w) (spreadsheets w) d.

(** Collaborators that fail at one stage: the model, the lookup of the
    spreadsheet, the append. *)
Definition quota_services : services :=
  mkServices (fun _ => Ok [py "AR guidance in liver surgery."])
             (fun _ _ => Raise (py "429 quota exceeded"))
             (fun _ name => Ok name) (fun _ _ => Ok tt) (fun name => name)
             duplicate_text_area one_second_later.

Definition no_sheet_services : services :=
  mkServices (fun _ => Ok [py "AR guidance in liver surgery."])
             (fun _ _ => Ok (py "Proposed Problem Statement:" ++ NL :: py "Reduce latency."))
             (fun _ _ => Raise (py "SpreadsheetNotFound")) (fun _ _ => Ok tt)
             (fun name => name)
             duplicate_text_area one_second_later.

Definition read_only_sheet_services : services :=
  mkServices (fun _ => Ok [py "AR guidance in liver surgery."])
             (fun _ _ => Ok (py "Proposed Problem Statement:" ++ NL :: py "Reduce latency."))
             (fun _ name => Ok name) (fun _ _ => Raise (py "403 forbidden"))
             (fun name => name)
             duplicate_text_area one_second_later.

(** [field] is a run of newline-terminated bullets, each the stripped form
    of a line of [text] that is no header line. *)
Definition made_of_bullets (text field : str) (bullets : list str) : Prop :=
  field = List.concat (map (fun b => b ++ [NL]) bullets)
  /\ Forall (fun b => startswith [DASH] b = true
                      /\ exists l, In l (str_split NL text)
                                   /\ header_of l = None /\ b = strip l) bullets.

(* ===================================================================== *)
(** ** Facts about Python strings *)
(* ===================================================================== *)

Section StringFacts.

Lemma exists_last_or_nil {A : Type} (l : list A) :
  l = [] \/ exists l' a, l = l' ++ [a].
Proof.
  destruct l as [|x l]; [now left | right].
  destruct (@exists_last A (x :: l)) as [l' [a H]]; [discriminate | eauto].
Qed.

Lemma startswith_spec (p s : str) :
  startswith p s = true <-> exists t, s = p ++ t.
Proof.
  revert s. induction p as [|a p IH]; intros s; simpl.
  - split; [intros _; now exists s | reflexivity].
  - destruct s as [|b s].
    + split; [discriminate | intros [t Ht]; discriminate].
    + rewrite andb_true_iff, N.eqb_eq, IH. split.
      * intros [-> [t ->]]. now exists t.
      * intros [t Ht]. injection Ht as -> ->. split; [reflexivity | now exists t].
Qed.

Lemma str_in_spec (n h : str) : str_in n h = true <-> occurs_in n h.
Proof.
  unfold occurs_in. induction h as [|c h IH]; simpl.
  - rewrite orb_false_r, startswith_spec. split.
    + intros [t Ht]. now exists [], t.
    + intros [l [r Hlr]]. destruct l; [now exists r | discriminate].
  - rewrite orb_true_iff, startswith_spec, IH. split.
    + intros [[t Ht] | [l [r Hlr]]].
      * now exists [], t.
      * exists (c :: l), r. now rewrite Hlr.
    + intros [l [r Hlr]]. destruct l as [|c' l].
      * left. now exists r.
      * right. injection Hlr as _ Hlr. now exists l, r.
Qed.

Lemma str_in_false (n h : str) : str_in n h = false <-> ~ occurs_in n h.
Proof.
  rewrite <- str_in_spec. destruct (str_in n h); split; congruence.
Qed.

Lemma occurs_in_trans (n a b : str) :
  occurs_in n a -> occurs_in a b -> occurs_in n b.
Proof.
  intros [l [r ->]] [l' [r' ->]]. exists (l' ++ l), (r ++ r').
  now rewrite <- !app_assoc.
Qed.

Lemma occurs_in_refl (s : str) : occurs_in s s.
Proof. exists [], []. now rewrite app_nil_r. Qed.

(** A needle without the character [c] cannot straddle an occurrence of [c]. *)
Lemma occurs_in_app_sep (n a b : str) (c : char) :
  ~ In c n -> occurs_in n (a ++ c :: b) -> occurs_in n a \/ occurs_in n b.
Proof.
  intros Hc [l [r H]].
  apply app_eq_app in H. destruct H as [m [[Ha Hn] | [Hl Hb]]].
  - (* the needle starts inside [a] *)
    symmetry in Hn. apply app_eq_app in Hn.
    destruct Hn as [m' [[Hm Hr] | [Hn Hcb]]].
    + left. exists l, m'. now rewrite Ha, Hm.
    + destruct m' as [|x m'].
      * left. exists l, []. rewrite Ha, Hn. now rewrite !app_nil_r.
      * injection Hcb as <- _. exfalso. apply Hc. rewrite Hn.
        apply in_or_app. right. now left.
  - (* the needle starts at or after [c] *)
    destruct m as [|x m].
    + simpl in Hb. destruct n as [|y n].
      * left. exists [], a. reflexivity.
      * injection Hb as <- _. exfalso. apply Hc. now left.
    + injection Hb as _ Hb. right. now exists m, r.
Qed.

(** A needle that does not end in [c] and occurs in [x ++ [c]] occurs in [x]. *)
Lemma occurs_in_snoc (n x : str) (c : char) :
  (forall n', n <> n' ++ [c]) -> occurs_in n (x ++ [c]) -> occurs_in n x.
Proof.
  intros Hlast [l [r H]].
  destruct (exists_last_or_nil r) as [-> | [r' [c' ->]]].
  - rewrite app_nil_r in H.
    destruct (exists_last_or_nil n) as [-> | [n' [c' ->]]].
    + exists [], x. reflexivity.
    + rewrite app_assoc in H. apply app_inj_tail in H as [_ <-].
      exfalso. now apply (Hlast n').
  - rewrite !app_assoc in H. apply app_inj_tail in H as [-> _].
    exists l, r'. now rewrite app_assoc.
Qed.

(** *** split and join *)

Lemma str_split_nonempty (sep : char) (s : str) : str_split sep s <> [].
Proof.
  destruct s as [|c s]; simpl; [discriminate |].
  destruct (N.eqb c sep); [discriminate |].
  destruct (str_split sep s); discriminate.
Qed.

Lemma str_split_app (sep : char) (a b : str) :
  str_split sep (a ++ sep :: b) = str_split sep a ++ str_split sep b.
Proof.
  induction a as [|c a IH]; simpl.
  - now rewrite N.eqb_refl.
  - destruct (N.eqb c sep); [now rewrite IH |].
    rewrite IH. pose proof (str_split_nonempty sep a) as Hne.
    destruct (str_split sep a); [congruence | reflexivity].
Qed.

Lemma str_split_no_sep (sep : char) (s : str) :
  Forall (fun l => ~ In sep l) (str_split sep s).
Proof.
  induction s as [|c s IH]; simpl.
  - constructor; [intros [] | constructor].
  - destruct (N.eqb_spec c sep) as [-> | Hne].
    + constructor; [intros [] | exact IH].
    + destruct (str_split sep s) as [|p ps]; inversion IH; subst.
      * constructor; [| constructor]. intros [H | []]. congruence.
      * constructor; [| assumption]. intros [H | H]; [congruence | contradiction].
Qed.

Lemma str_split_whole (sep : char) (s : str) :
  ~ In sep s -> str_split sep s = [s].
Proof.
  induction s as [|c s IH]; simpl; intros H; [reflexivity |].
  destruct (N.eqb_spec c sep) as [-> | Hne].
  - exfalso. apply H. now left.
  - rewrite IH; [reflexivity | tauto].
Qed.

(** Joining lines that hold no newline and splitting again gives the lines
    back, for one line at least. *)
Lemma str_split_join (sep : char) (parts : list str) :
  parts <> [] -> Forall (fun l => ~ In sep l) parts ->
  str_split sep (str_join [sep] parts) = parts.
Proof.
  induction parts as [|p ps IH]; intros Hne Hall; [congruence |].
  inversion Hall as [|? ? Hp Hps]; subst.
  destruct ps as [|q ps].
  - simpl. now apply str_split_whole.
  - change (str_join [sep] (p :: q :: ps)) with (p ++ sep :: str_join [sep] (q :: ps)).
    rewrite str_split_app, IH, str_split_whole; [reflexivity | assumption | discriminate | assumption].
Qed.

Lemma str_join_split (sep : char) (s : str) :
  str_join [sep] (str_split sep s) = s.
Proof.
  induction s as [|c s IH]; simpl; [reflexivity |].
  destruct (N.eqb_spec c sep) as [-> | Hne].
  - pose proof (str_split_nonempty sep s) as Hne.
    destruct (str_split sep s) as [|p ps]; [congruence |].
    simpl in *. now rewrite IH.
  - pose proof (str_split_nonempty sep s) as Hne'.
    destruct (str_split sep s) as [|p ps]; [congruence |].
    destruct ps; simpl in *; now rewrite <- IH.
Qed.

Lemma occurs_in_join (sep l : str) (parts : list str) :
  In l parts -> occurs_in l (str_join sep parts).
Proof.
  induction parts as [|p ps IH]; intros Hin; [contradiction |].
  destruct ps as [|q ps].
  - destruct Hin as [-> | []]. apply occurs_in_refl.
  - change (str_join sep (p :: q :: ps)) with (p ++ sep ++ str_join sep (q :: ps)).
    destruct Hin as [-> | Hin].
    + exists [], (sep ++ str_join sep (q :: ps)). reflexivity.
    + destruct (IH Hin) as [a [b Hab]]. exists (p ++ sep ++ a), b.
      rewrite Hab. now rewrite <- !app_assoc.
Qed.

(** Every line of a text occurs in the text. *)
Lemma line_occurs_in_text (text l : str) :
  In l (str_split NL text) -> occurs_in l text.
Proof.
  intros Hin. rewrite <- (str_join_split NL text). now apply occurs_in_join.
Qed.

(** *** strip *)

Lemma lstrip_suffix (s : str) : exists ws, s = ws ++ lstrip s.
Proof.
  induction s as [|c s [ws IH]]; simpl; [now exists [] |].
  destruct (isspace c).
  - exists (c :: ws). simpl. now rewrite <- IH.
  - now exists [].
Qed.

Lemma rstrip_prefix (s : str) : exists ws, s = rstrip s ++ ws.
Proof.
  unfold rstrip. destruct (lstrip_suffix (rev s)) as [ws H].
  exists (rev ws). rewrite <- rev_app_distr, <- H. now rewrite rev_involutive.
Qed.

Lemma strip_occurs (s : str) : occurs_in (strip s) s.
Proof.
  unfold strip. destruct (lstrip_suffix s) as [a Ha].
  destruct (rstrip_prefix (lstrip s)) as [b Hb].
  exists a, b. now rewrite <- Hb.
Qed.

Lemma occurs_in_In (n h : str) (c : char) : occurs_in n h -> In c n -> In c h.
Proof.
  intros [l [r ->]] Hc. apply in_or_app. right. apply in_or_app. now left.
Qed.

Lemma strip_keeps_out (s : str) (c : char) : ~ In c s -> ~ In c (strip s).
Proof. intros H Hc. apply H. exact (occurs_in_In _ _ _ (strip_occurs s) Hc). Qed.

End StringFacts.

(* ===================================================================== *)
(** ** The loop of [parse_response], line by line *)
(* ===================================================================== *)

Section ParserFacts.

(** [current_key == "pps"] on the names is equality of keys. *)
Lemma key_name_eqb (a b : key) : str_eqb (key_name a) (key_name b) = true <-> a = b.
Proof. destruct a, b; vm_compute; split; congruence. Qed.

Lemma info_eta (i : info) : mkInfo (solutions i) (to_solve i) (pps i) = i.
Proof. now destruct i. Qed.

Lemma append_to_nil (i : info) (k : key) : append_to i k [] = i.
Proof. destruct i, k; simpl; now rewrite app_nil_r. Qed.

(** [parse_line] by cases: a header line only moves [current_key]; any
    other line adds its [piece] to the field of the section it lies in. *)
Lemma parse_line_cases (i : info) (cur : option key) (line : str) :
  parse_line (i, cur) line =
  match header_of line with
  | Some h => (i, Some h)
  | None =>
      match cur with
      | Some k => (append_to i k (piece k line), cur)
      | None => (i, cur)
      end
  end.
Proof.
  unfold parse_line, header_of, piece.
  destruct (str_in hdr_solutions line); [reflexivity |].
  destruct (str_in hdr_to_solve line); [reflexivity |].
  destruct (str_in hdr_pps line); [reflexivity |].
  destruct cur as [[]|]; try reflexivity;
    destruct (startswith [DASH] (strip line)); try reflexivity;
    now rewrite append_to_nil.
Qed.

Lemma parse_lines_spec (lines : list str) (i : info) (cur : option key) :
  parse_lines lines (i, cur) =
  (mkInfo (solutions i ++ emitted Ksolutions cur lines)
          (to_solve i ++ emitted Kto_solve cur lines)
          (pps i ++ emitted Kpps cur lines),
   section_of cur lines).
Proof.
  revert i cur. induction lines as [|l ls IH]; intros i cur.
  - simpl. now rewrite !app_nil_r, info_eta.
  - change (parse_lines (l :: ls) (i, cur))
      with (parse_lines ls (parse_line (i, cur) l)).
    rewrite parse_line_cases. simpl emitted. simpl section_of.
    destruct (header_of l) as [h|]; [apply IH |].
    destruct cur as [[]|]; rewrite IH; simpl; now rewrite <- ?app_assoc.
Qed.

Lemma lookup_parse_lines (lines : list str) (k : key) :
  lookup (fst (parse_lines lines start)) k = emitted k None lines.
Proof. unfold start. rewrite parse_lines_spec. now destruct k. Qed.

Lemma section_parse_lines (lines : list str) :
  snd (parse_lines lines start) = section_of None lines.
Proof. unfold start. now rewrite parse_lines_spec. Qed.

Lemma lookup_parse_response (text : str) (k : key) :
  lookup (parse_response text) k = emitted k None (str_split NL text).
Proof. apply lookup_parse_lines. Qed.

(** Two results with the same three fields are the same record. *)
Lemma info_ext (a b : info) : (forall k, lookup a k = lookup b k) -> a = b.
Proof.
  intros H. destruct a, b.
  pose proof (H Ksolutions). pose proof (H Kto_solve). pose proof (H Kpps).
  simpl in *. congruence.
Qed.

Lemma section_of_app (cur : option key) (a b : list str) :
  section_of cur (a ++ b) = section_of (section_of cur a) b.
Proof.
  revert cur. induction a as [|l a IH]; intros cur; simpl; [reflexivity |].
  destruct (header_of l); apply IH.
Qed.

Lemma emitted_app (k : key) (cur : option key) (a b : list str) :
  emitted k cur (a ++ b) = emitted k cur a ++ emitted k (section_of cur a) b.
Proof.
  revert cur. induction a as [|l a IH]; intros cur; simpl; [reflexivity |].
  destruct (header_of l); [apply IH |].
  destruct cur as [c|]; [| apply IH].
  destruct k, c; rewrite IH; now rewrite <- ?app_assoc.
Qed.

(** One line that is no header, in section [c]. *)
Lemma emitted_line (k c : key) (l : str) (ls : list str) :
  header_of l = None ->
  emitted k (Some c) (l :: ls) =
  (if match k, c with
      | Ksolutions, Ksolutions | Kto_solve, Kto_solve | Kpps, Kpps => true
      | _, _ => false
      end then piece k l else []) ++ emitted k (Some c) ls.
Proof. intros H. simpl. rewrite H. now destruct k, c. Qed.

Lemma emitted_same (k : key) (l : str) (ls : list str) :
  header_of l = None ->
  emitted k (Some k) (l :: ls) = piece k l ++ emitted k (Some k) ls.
Proof. intros H. rewrite emitted_line by assumption. now destruct k. Qed.

Lemma emitted_other (k c : key) (l : str) (ls : list str) :
  header_of l = None -> k <> c ->
  emitted k (Some c) (l :: ls) = emitted k (Some c) ls.
Proof.
  intros H Hne. rewrite emitted_line by assumption.
  destruct k, c; try reflexivity; congruence.
Qed.

(** Lines without a header leave [current_key] alone; with no section
    open they add nothing. *)
Lemma section_of_plain (cur : option key) (ls : list str) :
  Forall (fun l => header_of l = None) ls -> section_of cur ls = cur.
Proof.
  induction 1 as [|l ls Hl _ IH]; simpl; [reflexivity |]. now rewrite Hl.
Qed.

Lemma emitted_closed (k : key) (ls : list str) :
  Forall (fun l => header_of l = None) ls -> emitted k None ls = [].
Proof.
  induction 1 as [|l ls Hl _ IH]; simpl; [reflexivity |]. now rewrite Hl.
Qed.

(** Bullet lines in their own section: one stripped line and a newline
    each; in another section: nothing. *)
Lemma emitted_plain_same (k : key) (ls : list str) :
  Forall (fun l => header_of l = None) ls ->
  emitted k (Some k) ls = List.concat (map (piece k) ls).
Proof.
  induction 1 as [|l ls Hl _ IH]; [reflexivity |].
  rewrite emitted_same by assumption. simpl. now rewrite IH.
Qed.

Lemma emitted_plain_other (k c : key) (ls : list str) :
  Forall (fun l => header_of l = None) ls -> k <> c ->
  emitted k (Some c) ls = [].
Proof.
  intros H Hne. induction H as [|l ls Hl _ IH]; [reflexivity |].
  now rewrite emitted_other.
Qed.

End ParserFacts.

(* ===================================================================== *)
(** ** Where a header phrase can and cannot occur *)
(* ===================================================================== *)

Section HeaderFacts.

(** The three phrases hold no newline and no bullet marker, and do not
    end in a space. *)
Lemma headers_shape (h : str) :
  In h headers ->
  ~ In NL h /\ ~ In DASH h /\ h <> [] /\ last h 0%N <> SP.
Proof.
  intros [<- | [<- | [<- | []]]];
    (repeat split; [vm_compute; intuition discriminate
                   | vm_compute; intuition discriminate
                   | discriminate
                   | vm_compute; discriminate]).
Qed.

Lemma header_of_some (l : str) :
  header_of l <> None <-> exists h, In h headers /\ str_in h l = true.
Proof.
  unfold header_of, headers. split.
  - intros H.
    destruct (str_in hdr_solutions l) eqn:E1; [exists hdr_solutions; simpl; auto |].
    destruct (str_in hdr_to_solve l) eqn:E2; [exists hdr_to_solve; simpl; auto |].
    destruct (str_in hdr_pps l) eqn:E3; [exists hdr_pps; simpl; auto |].
    congruence.
  - intros [h [[<- | [<- | [<- | []]]] E]] H;
      destruct (str_in hdr_solutions l); try discriminate;
      destruct (str_in hdr_to_solve l); try discriminate;
      destruct (str_in hdr_pps l); discriminate.
Qed.

Lemma header_of_none (l : str) :
  header_of l = None <-> forall h, In h headers -> str_in h l = false.
Proof.
  split.
  - intros H h Hin. destruct (str_in h l) eqn:E; [| reflexivity].
    exfalso. apply (proj2 (header_of_some l)); eauto.
  - intros H. destruct (header_of l) eqn:E; [| reflexivity].
    assert (Hs : header_of l <> None) by congruence.
    apply header_of_some in Hs as [h [Hin Hh]]. rewrite (H h Hin) in Hh. discriminate.
Qed.

(** A text that holds no phrase has no header line. *)
Lemma no_header_lines (text : str) :
  (forall h, In h headers -> str_in h text = false) ->
  Forall (fun l => header_of l = None) (str_split NL text).
Proof.
  intros H. apply Forall_forall. intros l Hl. apply header_of_none.
  intros h Hin. destruct (str_in h l) eqn:E; [| reflexivity].
  apply str_in_spec in E. apply line_occurs_in_text in Hl.
  pose proof (occurs_in_trans _ _ _ E Hl) as Ho.
  apply str_in_spec in Ho. rewrite (H h Hin) in Ho. discriminate.
Qed.

Lemma occurs_in_nil (n : str) : occurs_in n [] -> n = [].
Proof.
  intros [l [r H]]. symmetry in H.
  apply app_eq_nil in H as [_ H]. now apply app_eq_nil in H as [H _].
Qed.

(** A needle without newline found in newline-terminated pieces lies in
    one piece. *)
Lemma occurs_in_terminated (n : str) (c : char) (f : str -> str) (ps : list str) :
  ~ In c n -> n <> [] ->
  occurs_in n (List.concat (map (fun p => f p ++ [c]) ps)) ->
  exists p, In p ps /\ occurs_in n (f p).
Proof.
  intros Hc Hne. induction ps as [|p ps IH]; simpl; intros H.
  - apply occurs_in_nil in H. contradiction.
  - rewrite <- app_assoc in H. simpl in H.
    apply occurs_in_app_sep in H as [H | H]; [eauto | | assumption].
    destruct (IH H) as [q [Hq Ho]]. eauto.
Qed.

(** The same for pieces that each start with [d] and end with [c], for a
    needle that holds no [d] and does not end in [c]. *)
Lemma occurs_in_opened (n : str) (d c : char) (f : str -> str) (ps : list str) :
  ~ In d n -> n <> [] -> last n 0%N <> c ->
  Forall (fun p => startswith [d] (f p) = true) ps ->
  occurs_in n (List.concat (map (fun p => f p ++ [c]) ps)) ->
  exists p, In p ps /\ occurs_in n (f p).
Proof.
  intros Hd Hne Hlast Hall. induction Hall as [|p ps Hp Hps IH]; simpl; intros H.
  - apply occurs_in_nil in H. contradiction.
  - apply startswith_spec in Hp as [t Ht]. simpl in Ht.
    assert (Hin : occurs_in n (f p) \/
                  occurs_in n (List.concat (map (fun p => f p ++ [c]) ps))).
    { rewrite Ht in H |- *. simpl in H.
      apply (occurs_in_app_sep n [] _ d Hd) in H as [H | H].
      - apply occurs_in_nil in H. contradiction.
      - rewrite <- app_assoc in H.
        assert (Hsplit : occurs_in n (t ++ [c]) \/
                  occurs_in n (List.concat (map (fun p => f p ++ [c]) ps))).
        { destruct ps as [|q ps].
          - simpl in H. now left.
          - inversion Hps as [|? ? Hq _]; subst.
            apply startswith_spec in Hq as [t' Ht']. simpl in Ht'.
            simpl in H |- *. rewrite Ht' in H |- *. simpl in H |- *.
            match type of H with
            | occurs_in _ (_ ++ _ :: _ :: ?X) =>
                assert (H' : occurs_in n ((t ++ [c]) ++ d :: X))
                  by (rewrite <- app_assoc; exact H)
            end.
            clear H. rename H' into H.
            apply (occurs_in_app_sep n _ _ d Hd) in H as [H | H]; [now left |].
            right. destruct H as [l [r Hlr]]. exists (d :: l), r.
            simpl. now rewrite Hlr. }
        destruct Hsplit as [Ho | Ho]; [left | now right].
        apply occurs_in_snoc in Ho.
        + destruct Ho as [l [r Hlr]]. exists (d :: l), r. simpl. now rewrite Hlr.
        + intros n' Hn. apply Hlast. rewrite Hn. apply last_last. }
    destruct Hin as [Ho | Ho]; [eauto |].
    destruct (IH Ho) as [q [Hq Hoq]]. eauto.
Qed.

End HeaderFacts.

(* ===================================================================== *)
(** ** Properties of [parse_response] *)
(* ===================================================================== *)

Section ParseResponse.

Example parse_three_sections :
  parse_response
    (py "Existing AR/VR Solutions:" ++ [NL] ++ py "- HoloLens overlay" ++ [NL]
     ++ py "note" ++ [NL] ++ py "Problems to be Solved:" ++ [NL]
     ++ py "  - latency  " ++ [NL] ++ py "Proposed Problem Statement:" ++ [NL]
     ++ py "Build it.")
  = mkInfo (py "- HoloLens overlay" ++ [NL]) (py "- latency" ++ [NL])
           (py "Build it." ++ [SP]).
Proof. vm_compute. reflexivity. Qed.

(** A header phrase inside a bullet makes the line a header line: it moves
    the section and is not kept. *)
Example bullet_naming_a_header :
  parse_response
    (py "Existing AR/VR Solutions:" ++ [NL]
     ++ py "- see Problems to be Solved" ++ [NL] ++ py "- x")
  = mkInfo [] (py "- x" ++ [NL]) [].
Proof. vm_compute. reflexivity. Qed.

(** Removing one line of a text, when lines remain, is removing it from
    the list of lines. *)
Lemma split_without_line (text : str) (before after : list str) (line : str) :
  str_split NL text = before ++ line :: after ->
  before ++ after <> [] ->
  str_split NL (str_join [NL] (before ++ after)) = before ++ after.
Proof.
  intros Hs Hne. apply str_split_join; [assumption |].
  pose proof (str_split_no_sep NL text) as Hall. rewrite Hs in Hall.
  apply Forall_app in Hall as [Hb Ha]. inversion Ha; subst.
  apply Forall_app. now split.
Qed.

(** The effect of one line that is no header, with section [c] open when
    it is reached: its piece goes into field [c], after what the lines
    before it gave and before what the lines after it give. *)
Lemma emitted_insert (k c : key) (before after : list str) (line : str) :
  section_of None before = Some c ->
  header_of line = None ->
  emitted k None (before ++ line :: after) =
    emitted k None before
    ++ (if match k, c with
           | Ksolutions, Ksolutions | Kto_solve, Kto_solve | Kpps, Kpps => true
           | _, _ => false
           end then piece k line else [])
    ++ emitted k (Some c) after
  /\ emitted k None (before ++ after) =
    emitted k None before ++ emitted k (Some c) after.
Proof.
  intros Hsec Hl. rewrite !emitted_app, Hsec.
  now rewrite emitted_line by assumption.
Qed.

Lemma section_open_nonempty (before : list str) (c : key) :
  section_of None before = Some c -> before <> [].
Proof. destruct before; [discriminate | discriminate]. Qed.

(** C6: for the header line "Proposed Problem Statement" followed by the
    lines "Reduce latency." and "Improve haptics.", [parse_response]
    returns the pps field "Reduce latency. Improve haptics. ": the two
    lines with one space between them and a trailing space. *)
Theorem pps_two_lines_joined :
  pps (parse_response
         (py "Proposed Problem Statement" ++ [NL] ++ py "Reduce latency."
          ++ [NL] ++ py "Improve haptics."))
  = py "Reduce latency. Improve haptics. ".
Proof. vm_compute. reflexivity. Qed.

(** C4: the lines before the first header line add nothing to any field:
    the result is the one the loop computes from the remaining lines
    alone, that is, the result for the text without them; and a text that
    holds none of the three phrases parses to three empty strings (the
    function is total, so nothing is raised). *)
Theorem lines_before_first_header_dropped (text : str) :
  (forall before after : list str,
      str_split NL text = before ++ after ->
      Forall (fun l => header_of l = None) before ->
      parse_response text = fst (parse_lines after start)
      /\ (after <> [] -> parse_response text = parse_response (str_join [NL] after))) /\
  (str_in hdr_solutions text = false ->
   str_in hdr_to_solve text = false ->
   str_in hdr_pps text = false ->
   parse_response text = empty_info).
Proof.
  split.
  - intros before after Hs Hb.
    assert (Hrest : parse_response text = fst (parse_lines after start)).
    { apply info_ext. intros k.
      rewrite lookup_parse_response, lookup_parse_lines, Hs, emitted_app.
      now rewrite emitted_closed, section_of_plain. }
    split; [exact Hrest |].
    intros Hne. rewrite Hrest. unfold parse_response.
    rewrite str_split_join; [reflexivity | assumption |].
    pose proof (str_split_no_sep NL text) as Hall. rewrite Hs in Hall.
    now apply Forall_app in Hall as [_ Ha].
  - intros H1 H2 H3. apply info_ext. intros k.
    rewrite lookup_parse_response, emitted_closed; [now destruct k |].
    apply no_header_lines. intros h [<- | [<- | [<- | []]]]; assumption.
Qed.

Lemma lines_before_first_header_dropped_witness :
  parse_response
    (py "Here is the summary." ++ NL :: py "- stray" ++ NL
     :: py "Problems to be Solved:" ++ NL :: py "- cost")
  = parse_response (str_join [NL] [py "Problems to be Solved:"; py "- cost"])
  /\ parse_response (py "Sorry, I cannot help." ++ NL :: py "- nothing")
     = empty_info.
Proof.
  split.
  - apply (proj1 (lines_before_first_header_dropped _)
             [py "Here is the summary."; py "- stray"]
             [py "Problems to be Solved:"; py "- cost"]).
    + vm_compute. reflexivity.
    + repeat constructor.
    + discriminate.
  - apply (proj2 (lines_before_first_header_dropped _)); vm_compute; reflexivity.
Defined.

(** C5, as the code has it: inside an open solutions or to_solve section,
    of the lines that hold none of the three phrases, a line whose
    stripped form does not start with "-" is absent from the result (the
    text parses as it does with the line removed), and a line whose
    stripped form starts with "-" is present in the field of its section:
    its stripped form and a newline stand there between what the lines
    before it and the lines after it contribute, and no other field
    changes. *)
Theorem bullet_marker_decides (text : str) (before after : list str)
    (line : str) (k : key) :
  str_split NL text = before ++ line :: after ->
  snd (parse_lines before start) = Some k ->
  k <> Kpps ->
  header_of line = None ->
  let without := parse_response (str_join [NL] (before ++ after)) in
  (is_bullet line = false -> parse_response text = without) /\
  (is_bullet line = true ->
     exists post,
       lookup (parse_response text) k
       = lookup (fst (parse_lines before start)) k ++ strip line ++ [NL] ++ post
       /\ lookup without k = lookup (fst (parse_lines before start)) k ++ post
       /\ forall k', k' <> k ->
            lookup (parse_response text) k' = lookup without k').
Proof.
  intros Hs Hsec Hk Hl without. rewrite section_parse_lines in Hsec.
  assert (Hw : forall k', lookup without k' = emitted k' None (before ++ after)).
  { intros k'. unfold without. rewrite lookup_parse_response.
    rewrite (split_without_line text before after line Hs); [reflexivity |].
    pose proof (section_open_nonempty _ _ Hsec). destruct before; [congruence | discriminate]. }
  split.
  - intros Hb. apply info_ext. intros k'.
    rewrite Hw, lookup_parse_response, Hs.
    destruct (emitted_insert k' k before after line Hsec Hl) as [-> ->].
    unfold piece, is_bullet in *. rewrite Hb.
    destruct k', k; simpl; congruence.
  - intros Hb. exists (emitted k (Some k) after).
    rewrite !lookup_parse_lines, lookup_parse_response, Hs, Hw.
    destruct (emitted_insert k k before after line Hsec Hl) as [-> ->].
    unfold piece, is_bullet in *. rewrite Hb.
    split; [destruct k; simpl; try congruence; now rewrite <- app_assoc |].
    split; [reflexivity |].
    intros k' Hne. rewrite Hw, lookup_parse_response, Hs.
    destruct (emitted_insert k' k before after line Hsec Hl) as [-> ->].
    destruct k', k; simpl; congruence.
Qed.

Lemma bullet_marker_decides_witness :
  (parse_response
     (str_join [NL] ([py "Existing AR/VR Solutions:"; py "- overlay"]
                     ++ py "a remark" :: [py "Problems to be Solved:"; py "- cost"]))
   = parse_response
       (str_join [NL] ([py "Existing AR/VR Solutions:"; py "- overlay"]
                       ++ [py "Problems to be Solved:"; py "- cost"])))
  /\ exists post,
       solutions
         (parse_response
            (str_join [NL] ([py "Existing AR/VR Solutions:"; py "- overlay"]
                            ++ py " - tracking" :: [py "Problems to be Solved:"; py "- cost"])))
       = (py "- overlay" ++ [NL]) ++ py "- tracking" ++ [NL] ++ post.
Proof.
  split.
  - apply (proj1 (bullet_marker_decides
                    (str_join [NL] ([py "Existing AR/VR Solutions:"; py "- overlay"]
                       ++ py "a remark" :: [py "Problems to be Solved:"; py "- cost"]))
                    [py "Existing AR/VR Solutions:"; py "- overlay"]
                    [py "Problems to be Solved:"; py "- cost"]
                    (py "a remark") Ksolutions
                    eq_refl eq_refl ltac:(discriminate) eq_refl)).
    reflexivity.
  - destruct (proj2 (bullet_marker_decides
                    (str_join [NL] ([py "Existing AR/VR Solutions:"; py "- overlay"]
                       ++ py " - tracking" :: [py "Problems to be Solved:"; py "- cost"]))
                    [py "Existing AR/VR Solutions:"; py "- overlay"]
                    [py "Problems to be Solved:"; py "- cost"]
                    (py " - tracking") Ksolutions
                    eq_refl eq_refl ltac:(discriminate) eq_refl) eq_refl)
      as [post [H _]].
    exists post. exact H.
Defined.

(** C5 as stated fails: a line that starts with "-" is absent from the
    field of its section when it names a phrase, because the header tests
    come before the bullet test. *)
Lemma bullet_with_phrase_absent :
  str_split NL
    (py "Existing AR/VR Solutions:" ++ NL
     :: py "- unlike other Existing AR/VR Solutions, X tracks tools")
  = [py "Existing AR/VR Solutions:";
     py "- unlike other Existing AR/VR Solutions, X tracks tools"]
  /\ snd (parse_lines [py "Existing AR/VR Solutions:"] start) = Some Ksolutions
  /\ is_bullet (py "- unlike other Existing AR/VR Solutions, X tracks tools") = true
  /\ solutions
       (parse_response
          (py "Existing AR/VR Solutions:" ++ NL
           :: py "- unlike other Existing AR/VR Solutions, X tracks tools"))
     = [].
Proof. vm_compute. repeat split. Qed.

(** The character that closes a line's piece in field [k]. *)
Lemma piece_kept (k : key) (line : str) :
  k = Kpps \/ is_bullet line = true ->
  piece k line = strip line ++ [match k with Kpps => SP | _ => NL end].
Proof.
  unfold piece, is_bullet. intros [-> | H]; [reflexivity |].
  destruct k; now rewrite ?H.
Qed.

(** C7, as the code has it: a line of an open section that holds none of
    the three phrases is kept in stripped form, not verbatim.  Such a
    bullet line of the solutions or to_solve section contributes
    [line.strip()] and a newline, such a line of the pps section
    contributes [line.strip()] and a space, at its place in the field; a
    line that has no leading or trailing whitespace is therefore kept as
    it is. *)
Theorem kept_lines_are_stripped (text : str) (before after : list str)
    (line : str) (k : key) :
  str_split NL text = before ++ line :: after ->
  snd (parse_lines before start) = Some k ->
  header_of line = None ->
  k = Kpps \/ is_bullet line = true ->
  let terminator := match k with Kpps => SP | _ => NL end in
  (exists post,
     lookup (parse_response text) k
     = lookup (fst (parse_lines before start)) k
       ++ strip line ++ [terminator] ++ post
     /\ lookup (parse_response (str_join [NL] (before ++ after))) k
        = lookup (fst (parse_lines before start)) k ++ post)
  /\ (strip line = line ->
      str_in (line ++ [terminator]) (lookup (parse_response text) k) = true).
Proof.
  intros Hs Hsec Hl Hkeep terminator. rewrite section_parse_lines in Hsec.
  assert (Hfield : lookup (parse_response text) k
                   = emitted k None before ++ strip line ++ [terminator]
                     ++ emitted k (Some k) after).
  { rewrite lookup_parse_response, Hs.
    destruct (emitted_insert k k before after line Hsec Hl) as [-> _].
    rewrite piece_kept by assumption. destruct k; now rewrite <- app_assoc. }
  split.
  - exists (emitted k (Some k) after). rewrite lookup_parse_lines. split; [assumption |].
    rewrite lookup_parse_response.
    rewrite (split_without_line text before after line Hs).
    + now destruct (emitted_insert k k before after line Hsec Hl) as [_ ->].
    + pose proof (section_open_nonempty _ _ Hsec). destruct before; [congruence | discriminate].
  - intros Hverb. apply str_in_spec. rewrite Hfield, Hverb.
    exists (emitted k None before), (emitted k (Some k) after).
    now rewrite <- !app_assoc.
Qed.

Lemma kept_lines_are_stripped_witness :
  (exists post,
     pps (parse_response
            (py "Proposed Problem Statement:" ++ NL :: py "Build a haptic trainer."))
     = [] ++ py "Build a haptic trainer." ++ [SP] ++ post
     /\ pps (parse_response (py "Proposed Problem Statement:")) = [] ++ post)
  /\ str_in (py "Build a haptic trainer." ++ [SP])
       (pps (parse_response
               (py "Proposed Problem Statement:" ++ NL :: py "Build a haptic trainer.")))
     = true.
Proof.
  pose proof (kept_lines_are_stripped
                (py "Proposed Problem Statement:" ++ NL :: py "Build a haptic trainer.")
                [py "Proposed Problem Statement:"] []
                (py "Build a haptic trainer.") Kpps
                eq_refl eq_refl eq_refl (or_introl eq_refl)) as [H1 H2].
  split; [exact H1 | exact (H2 eq_refl)].
Defined.

(** A line of the pps section that names a phrase is a header line and
    is not kept. *)
Example pps_line_with_phrase_dropped :
  parse_response
    (py "Proposed Problem Statement:" ++ NL
     :: py "Unlike Existing AR/VR Solutions, build a cheap trainer.")
  = empty_info.
Proof. vm_compute. reflexivity. Qed.

(** C7 as stated fails: [strip()] removes the whitespace around a kept
    line, so a bullet line with a trailing blank, or a pps line with
    leading blanks, does not occur verbatim in its field. *)
Lemma kept_lines_not_verbatim :
  (str_split NL (py "Existing AR/VR Solutions:" ++ NL :: py "- overlay ")
   = [py "Existing AR/VR Solutions:"; py "- overlay "]
   /\ snd (parse_lines [py "Existing AR/VR Solutions:"] start) = Some Ksolutions
   /\ is_bullet (py "- overlay ") = true
   /\ solutions (parse_response (py "Existing AR/VR Solutions:" ++ NL :: py "- overlay "))
      = py "- overlay" ++ [NL]
   /\ str_in (py "- overlay ")
        (solutions (parse_response (py "Existing AR/VR Solutions:" ++ NL :: py "- overlay ")))
      = false)
  /\ (str_split NL (py "Proposed Problem Statement:" ++ NL :: py "  Build it.")
      = [py "Proposed Problem Statement:"; py "  Build it."]
      /\ snd (parse_lines [py "Proposed Problem Statement:"] start) = Some Kpps
      /\ pps (parse_response (py "Proposed Problem Statement:" ++ NL :: py "  Build it."))
         = py "Build it. "
      /\ str_in (py "  Build it.")
           (pps (parse_response (py "Proposed Problem Statement:" ++ NL :: py "  Build it.")))
         = false).
Proof. vm_compute. repeat split. Qed.

(** *** Three sections in order *)

Lemma bullets_pieces (k : key) (bs : list str) :
  Forall (fun l => header_of l = None /\ is_bullet l = true) bs ->
  Forall (fun l => header_of l = None) bs
  /\ List.concat (map (piece k) bs)
     = List.concat (map (fun l => strip l ++ [match k with Kpps => SP | _ => NL end]) bs).
Proof.
  induction 1 as [|l ls [Hh Hb] _ [IH1 IH2]]; [now split |].
  split; [now constructor |].
  simpl. rewrite IH2, piece_kept by now right. reflexivity.
Qed.

(** A phrase found in the field built from bullet lines lies in one of
    the lines. *)
Lemma header_in_bullet_field (h : str) (k : key) (bs : list str) :
  In h headers ->
  Forall (fun l => header_of l = None /\ is_bullet l = true) bs ->
  ~ occurs_in h
      (List.concat (map (fun l => strip l ++ [match k with Kpps => SP | _ => NL end]) bs)).
Proof.
  intros Hh Hbs Ho.
  destruct (headers_shape h Hh) as [Hnl [Hdash [Hne Hlast]]].
  assert (Hex : exists l, In l bs /\ occurs_in h (strip l)).
  { destruct k.
    - now apply (occurs_in_terminated h NL strip bs).
    - now apply (occurs_in_terminated h NL strip bs).
    - apply (occurs_in_opened h DASH SP strip bs); try assumption.
      eapply Forall_impl; [| exact Hbs]. now intros l [_ Hb]. }
  destruct Hex as [l [Hl Hol]].
  rewrite Forall_forall in Hbs. destruct (Hbs l Hl) as [Hnone _].
  pose proof (occurs_in_trans _ _ _ Hol (strip_occurs l)) as Hin.
  apply str_in_spec in Hin.
  rewrite (proj1 (header_of_none l) Hnone h Hh) in Hin. discriminate.
Qed.

(** C1, as the code has it: when the lines of the input are, after lines
    without any phrase, a line with "Existing AR/VR Solutions", bullet
    lines, a line with "Problems to be Solved", bullet lines, a line with
    "Proposed Problem Statement" and bullet lines, and no bullet line
    holds any of the three phrases, every bullet line goes (stripped and
    terminated) to the field of the header above it, in order, and no
    line that holds a phrase occurs in any of the three fields. *)
Theorem three_sections_in_order (text : str) (pre b1 b2 b3 : list str)
    (h1 h2 h3 : str) :
  str_split NL text = pre ++ h1 :: b1 ++ h2 :: b2 ++ h3 :: b3 ->
  Forall (fun l => header_of l = None) pre ->
  header_of h1 = Some Ksolutions ->
  header_of h2 = Some Kto_solve ->
  header_of h3 = Some Kpps ->
  Forall (fun l => header_of l = None /\ is_bullet l = true) b1 ->
  Forall (fun l => header_of l = None /\ is_bullet l = true) b2 ->
  Forall (fun l => header_of l = None /\ is_bullet l = true) b3 ->
  let r := parse_response text in
  solutions r = List.concat (map (fun l => strip l ++ [NL]) b1)
  /\ to_solve r = List.concat (map (fun l => strip l ++ [NL]) b2)
  /\ pps r = List.concat (map (fun l => strip l ++ [SP]) b3)
  /\ forall (line : str) (k : key),
       header_of line <> None -> str_in line (lookup r k) = false.
Proof.
  intros Hs Hpre H1 H2 H3 Hb1 Hb2 Hb3 r.
  destruct (bullets_pieces Ksolutions b1 Hb1) as [P1 E1].
  destruct (bullets_pieces Kto_solve b2 Hb2) as [P2 E2].
  destruct (bullets_pieces Kpps b3 Hb3) as [P3 E3].
  assert (Hfield : forall k, lookup r k =
            match k with
            | Ksolutions => List.concat (map (fun l => strip l ++ [NL]) b1)
            | Kto_solve => List.concat (map (fun l => strip l ++ [NL]) b2)
            | Kpps => List.concat (map (fun l => strip l ++ [SP]) b3)
            end).
  { intros k. unfold r. rewrite lookup_parse_response, Hs.
    rewrite emitted_app, (emitted_closed k pre Hpre), (section_of_plain None pre Hpre).
    simpl. rewrite H1, emitted_app, (section_of_plain _ b1 P1).
    simpl. rewrite H2, emitted_app, (section_of_plain _ b2 P2).
    simpl. rewrite H3.
    destruct k.
    - rewrite (emitted_plain_same Ksolutions b1 P1), E1.
      rewrite !emitted_plain_other by (assumption || discriminate).
      now rewrite app_nil_r.
    - rewrite (emitted_plain_same Kto_solve b2 P2), E2.
      rewrite !emitted_plain_other by (assumption || discriminate).
      now rewrite app_nil_r.
    - rewrite (emitted_plain_same Kpps b3 P3), E3.
      now rewrite !emitted_plain_other by (assumption || discriminate). }
  split; [exact (Hfield Ksolutions) |].
  split; [exact (Hfield Kto_solve) |].
  split; [exact (Hfield Kpps) |].
  intros line k Hline. apply str_in_false. intros Ho.
  apply header_of_some in Hline as [h [Hh Hin]]. apply str_in_spec in Hin.
  pose proof (occurs_in_trans _ _ _ Hin Ho) as Hoh. rewrite Hfield in Hoh.
  destruct k.
  - exact (header_in_bullet_field h Ksolutions b1 Hh Hb1 Hoh).
  - exact (header_in_bullet_field h Kto_solve b2 Hh Hb2 Hoh).
  - exact (header_in_bullet_field h Kpps b3 Hh Hb3 Hoh).
Qed.

Lemma three_sections_in_order_witness :
  solutions
    (parse_response
       (str_join [NL]
          [py "Summary"; py "Existing AR/VR Solutions:"; py "- overlay"; py "  - tracking ";
           py "Problems to be Solved:"; py "- cost";
           py "Proposed Problem Statement:"; py "- Build it."]))
  = py "- overlay" ++ [NL] ++ py "- tracking" ++ [NL].
Proof.
  exact (proj1 (three_sections_in_order
           (str_join [NL]
              [py "Summary"; py "Existing AR/VR Solutions:"; py "- overlay"; py "  - tracking ";
               py "Problems to be Solved:"; py "- cost";
               py "Proposed Problem Statement:"; py "- Build it."])
           [py "Summary"] [py "- overlay"; py "  - tracking "] [py "- cost"] [py "- Build it."]
           (py "Existing AR/VR Solutions:") (py "Problems to be Solved:")
           (py "Proposed Problem Statement:")
           eq_refl
           ltac:(repeat constructor) eq_refl eq_refl eq_refl
           ltac:(repeat constructor) ltac:(repeat constructor)
           ltac:(repeat constructor))).
Defined.

(** C1 as stated fails: the header tests come first for every line, so a
    bullet line that names a phrase is a header line.  Here the third
    line follows the solutions header and starts with "-", yet it is kept
    in no field, and the bullet after it goes to to_solve. *)
Lemma bullet_with_phrase_moves_section :
  str_split NL
    (str_join [NL]
       [py "Existing AR/VR Solutions"; py "- a";
        py "- the Problems to be Solved are many"; py "- b";
        py "Problems to be Solved"; py "- c";
        py "Proposed Problem Statement"; py "- d"])
  = [py "Existing AR/VR Solutions"; py "- a";
     py "- the Problems to be Solved are many"; py "- b";
     py "Problems to be Solved"; py "- c";
     py "Proposed Problem Statement"; py "- d"]
  /\ forallb is_bullet
       [py "- a"; py "- the Problems to be Solved are many"; py "- b"; py "- c"; py "- d"]
     = true
  /\ parse_response
       (str_join [NL]
          [py "Existing AR/VR Solutions"; py "- a";
           py "- the Problems to be Solved are many"; py "- b";
           py "Problems to be Solved"; py "- c";
           py "Proposed Problem Statement"; py "- d"])
     = mkInfo (py "- a" ++ [NL]) (py "- b" ++ [NL] ++ py "- c" ++ [NL]) (py "- d" ++ [SP])
  /\ str_in (py "- b") (py "- a" ++ [NL]) = false
  /\ str_in (py "- the Problems to be Solved are many")
       ((py "- a" ++ [NL]) ++ (py "- b" ++ [NL] ++ py "- c" ++ [NL]) ++ (py "- d" ++ [SP]))
     = false.
Proof. vm_compute. repeat split. Qed.

(** *** The shape of the three fields *)

Lemma ends_with_app (c : char) (a b : str) :
  (a = [] \/ ends_with c a) -> (b = [] \/ ends_with c b) ->
  a ++ b = [] \/ ends_with c (a ++ b).
Proof.
  intros Ha [-> | [body ->]].
  - now rewrite app_nil_r.
  - right. exists (a ++ body). now rewrite app_assoc.
Qed.

Lemma piece_ends (k : key) (l : str) :
  piece k l = [] \/ ends_with (match k with Kpps => SP | _ => NL end) (piece k l).
Proof.
  unfold piece. destruct k; try (right; now exists (strip l));
    destruct (startswith [DASH] (strip l)); (now left) || (right; now exists (strip l)).
Qed.

Lemma emitted_ends (k : key) (cur : option key) (lines : list str) :
  emitted k cur lines = []
  \/ ends_with (match k with Kpps => SP | _ => NL end) (emitted k cur lines).
Proof.
  revert cur. induction lines as [|l ls IH]; intros cur; simpl; [now left |].
  destruct (header_of l); [apply IH |].
  destruct cur as [c|]; [| apply IH].
  destruct k, c; try apply IH; apply ends_with_app; auto using piece_ends.
Qed.

Lemma emitted_pps_no_newline (cur : option key) (lines : list str) :
  Forall (fun l => ~ In NL l) lines -> ~ In NL (emitted Kpps cur lines).
Proof.
  intros Hall. revert cur. induction Hall as [|l ls Hl _ IH]; intros cur; simpl; [tauto |].
  destruct (header_of l); [apply IH |].
  destruct cur as [[]|]; try apply IH.
  unfold piece. rewrite <- app_assoc. intros Hin.
  apply in_app_or in Hin as [Hin | [Hin | Hin]].
  - now apply (strip_keeps_out l NL Hl).
  - discriminate.
  - now apply (IH (Some Kpps)).
Qed.

(** What [lstrip] and [strip] leave starts, and ends, with no
    whitespace. *)
Lemma lstrip_head (s : str) :
  match lstrip s with [] => True | c :: _ => isspace c = false end.
Proof.
  induction s as [|c s IH]; simpl; [exact I |].
  destruct (isspace c) eqn:E; [exact IH | exact E].
Qed.

Lemma strip_not_ends_with_space (s : str) : ~ ends_with SP (strip s).
Proof.
  unfold strip, rstrip. intros [body H].
  apply (f_equal (@rev char)) in H. rewrite rev_involutive, rev_app_distr in H.
  simpl in H. pose proof (lstrip_head (rev (lstrip s))) as Hh.
  rewrite H in Hh. discriminate.
Qed.

(** C10, as the code has it: for every input the pps field holds no
    newline and is empty or ends with a space, and the solutions and
    to_solve fields are each empty or end with a newline.  The space that
    ends pps is a single one when the text ends with a line of the pps
    section that is not blank and holds none of the three phrases; a
    blank line there adds a space of its own. *)
Theorem parsed_fields_shape (text : str) :
  let r := parse_response text in
  ~ In NL (pps r)
  /\ (pps r = [] \/ ends_with SP (pps r))
  /\ (solutions r = [] \/ ends_with NL (solutions r))
  /\ (to_solve r = [] \/ ends_with NL (to_solve r))
  /\ (forall before line,
        str_split NL text = before ++ [line] ->
        snd (parse_lines before start) = Some Kpps ->
        header_of line = None ->
        strip line <> [] ->
        ends_with_single SP (pps r)).
Proof.
  intros r.
  pose proof (lookup_parse_response text Kpps) as Hp.
  pose proof (lookup_parse_response text Ksolutions) as Hs.
  pose proof (lookup_parse_response text Kto_solve) as Ht.
  simpl in Hp, Hs, Ht. fold r in Hp, Hs, Ht.
  repeat split.
  - rewrite Hp. apply emitted_pps_no_newline, str_split_no_sep.
  - rewrite Hp. apply (emitted_ends Kpps).
  - rewrite Hs. apply (emitted_ends Ksolutions).
  - rewrite Ht. apply (emitted_ends Kto_solve).
  - intros before line Hsplit Hsec Hl Hne. rewrite section_parse_lines in Hsec.
    rewrite Hp, Hsplit, emitted_app, Hsec, emitted_same by assumption.
    simpl. rewrite app_nil_r, app_assoc.
    eexists. split; [reflexivity |]. intros [body Hb].
    destruct (exists_last_or_nil (strip line)) as [E | [s' [c E]]]; [contradiction |].
    rewrite E, app_assoc in Hb. apply app_inj_tail in Hb as [_ ->].
    apply (strip_not_ends_with_space line). now exists s'.
Qed.

Lemma parsed_fields_shape_witness :
  ends_with_single SP
    (pps (parse_response (py "Proposed Problem Statement:" ++ NL :: py "Build it."))).
Proof.
  apply (proj2 (proj2 (proj2 (proj2 (parsed_fields_shape
           (py "Proposed Problem Statement:" ++ NL :: py "Build it."))))))
    with (before := [py "Proposed Problem Statement:"]) (line := py "Build it.").
  - reflexivity.
  - reflexivity.
  - reflexivity.
  - vm_compute. discriminate.
Defined.

(** A last line that is not blank but names a phrase adds nothing: the
    two spaces of the lines before it stay at the end. *)
Example pps_ending_with_header_line :
  pps (parse_response
         (str_join [NL]
            [py "Proposed Problem Statement:"; py "Build it."; [];
             py "see Existing AR/VR Solutions"]))
  = py "Build it." ++ [SP; SP].
Proof. vm_compute. reflexivity. Qed.

(** C10 as stated fails: a blank line at the end of the pps section (here
    the empty last line that a final newline produces) leaves two spaces
    at the end of the field. *)
Lemma pps_two_trailing_spaces :
  pps (parse_response (py "Proposed Problem Statement:" ++ NL :: py "Build it." ++ [NL]))
  = py "Build it." ++ [SP; SP]
  /\ pps (parse_response (py "Proposed Problem Statement:" ++ NL :: py "Build it." ++ [NL]))
     <> []
  /\ ~ ends_with_single SP
       (pps (parse_response
               (py "Proposed Problem Statement:" ++ NL :: py "Build it." ++ [NL]))).
Proof.
  split; [vm_compute; reflexivity |]. split; [vm_compute; discriminate |].
  intros [body [H Hnot]]. apply Hnot. exists (py "Build it.").
  change (pps (parse_response
                 (py "Proposed Problem Statement:" ++ NL :: py "Build it." ++ [NL])))
    with ((py "Build it." ++ [SP]) ++ [SP]) in H.
  now apply app_inj_tail in H as [<- _].
Qed.

End ParseResponse.

(* ===================================================================== *)
(** ** The prompt *)
(* ===================================================================== *)

Section Prompt.

Lemma slice_to_length (n : N) (s : str) :
  List.length (slice_to n s) <= N.to_nat n.
Proof. unfold slice_to. apply firstn_le_length. Qed.

Lemma slice_to_prefix (n : N) (s : str) :
  exists rest, s = slice_to n s ++ rest.
Proof. exists (skipn (N.to_nat n) s). unfold slice_to. now rewrite firstn_skipn. Qed.

(** C3: the prompt that [extract_info_with_gemini] sends, and whose
    answer it returns, is the fixed template followed by a prefix of the
    text of at most 30,000 characters (all of the text when it has no
    more) and a newline; in the template the phrases "Existing AR/VR
    Solutions", "Problems to be Solved" and "Proposed Problem Statement"
    first occur in that order, and the three lines of the format block
    are those headers, with a colon, in that order. *)
Theorem prompt_embeds_leading_slice (sv : services) (text api_key : str) (w : world) :
  model_calls (execState (extract_info_with_gemini sv text api_key) w)
  = model_calls w ++ [prompt_head ++ slice_to MAX_CHARS text ++ [NL]]
  /\ evalState (extract_info_with_gemini sv text api_key) w
     = match generate_content sv api_key
               (prompt_head ++ slice_to MAX_CHARS text ++ [NL]) with
       | Ok response_text => Some response_text
       | Raise _ => None
       end
  /\ MAX_CHARS = 30000%N
  /\ List.length (slice_to MAX_CHARS text) <= N.to_nat 30000
  /\ (exists rest, text = slice_to MAX_CHARS text ++ rest)
  /\ List.length (slice_to MAX_CHARS text)
     = Nat.min (N.to_nat 30000) (List.length text)
  /\ (exists i j k,
        str_find hdr_solutions prompt_head = Some i
        /\ str_find hdr_to_solve prompt_head = Some j
        /\ str_find hdr_pps prompt_head = Some k
        /\ i < j < k)
  /\ (exists l1 l2 l3 l4,
        prompt_template
        = l1 ++ [py "Existing AR/VR Solutions:"] ++ l2
          ++ [py "Problems to be Solved:"] ++ l3
          ++ [py "Proposed Problem Statement:"] ++ l4).
Proof.
  split.
  { unfold extract_info_with_gemini, build_prompt.
    destruct (generate_content sv api_key _); reflexivity. }
  split.
  { unfold extract_info_with_gemini, build_prompt.
    destruct (generate_content sv api_key _); reflexivity. }
  split; [reflexivity |].
  split; [apply slice_to_length |].
  split; [apply slice_to_prefix |].
  split; [apply length_firstn |].
  split.
  - eexists _, _, _. repeat split; try (vm_compute; reflexivity); vm_compute; lia.
  - exists (firstn 13 prompt_template), [py "- ..."; []], [py "- ..."; []],
      [py "..."; []; py "TEXT:"].
    reflexivity.
Qed.

End Prompt.

(* ===================================================================== *)
(** ** The timestamp *)
(* ===================================================================== *)

Section Timestamp.

Example strftime_sample :
  strftime (mkDatetime 2024 3 7 9 5 0) = py "2024-03-07 09:05:00".
Proof. vm_compute. reflexivity. Qed.

Lemma N_below_In (n m : N) : (m < n)%N -> In m (N_below n).
Proof.
  intros H. unfold N_below. apply in_map_iff. exists (N.to_nat m).
  split; [apply N2Nat.id |]. apply in_seq. lia.
Qed.

(** Numbers below 100 print, zero-filled, as two digits. *)
Lemma two_digits (n : N) :
  (n <= 99)%N -> all_digits 2 (zfill 2 (str_of_N n)) = true.
Proof.
  intros H.
  assert (Hall : forallb (fun m => all_digits 2 (zfill 2 (str_of_N m))) (N_below 100) = true)
    by (vm_compute; reflexivity).
  rewrite forallb_forall in Hall. apply Hall, N_below_In. lia.
Qed.

(** Years up to 9999 print, zero-filled, as four digits. *)
Lemma four_digits (n : N) :
  (n <= 9999)%N -> all_digits 4 (zfill 4 (str_of_N n)) = true.
Proof.
  intros H.
  assert (Hall : forallb (fun m => all_digits 4 (zfill 4 (str_of_N m))) (N_below 10000) = true)
    by (vm_compute; reflexivity).
  rewrite forallb_forall in Hall. apply Hall, N_below_In. lia.
Qed.

Lemma all_digits_2 (s : str) :
  all_digits 2 s = true ->
  exists a b, s = [a; b] /\ isdigit a = true /\ isdigit b = true.
Proof.
  unfold all_digits. destruct s as [|a [|b [|c s]]]; simpl; try discriminate.
  rewrite !andb_true_iff. intros [Ha [Hb _]]. now exists a, b.
Qed.

Lemma all_digits_4 (s : str) :
  all_digits 4 s = true ->
  exists a b c d, s = [a; b; c; d]
    /\ isdigit a = true /\ isdigit b = true /\ isdigit c = true /\ isdigit d = true.
Proof.
  unfold all_digits. destruct s as [|a [|b [|c [|d [|e s]]]]]; simpl; try discriminate.
  rewrite !andb_true_iff. intros [Ha [Hb [Hc [Hd _]]]]. now exists a, b, c, d.
Qed.

Lemma strftime_shape (d : datetime) :
  valid_datetime d -> is_timestamp (strftime d) = true.
Proof.
  intros (Hy & Hm & Hd & Hh & Hmi & Hs). unfold strftime.
  destruct (all_digits_4 _ (four_digits (year d) ltac:(lia)))
    as (y1 & y2 & y3 & y4 & -> & ? & ? & ? & ?).
  destruct (all_digits_2 _ (two_digits (month d) ltac:(lia))) as (m1 & m2 & -> & ? & ?).
  destruct (all_digits_2 _ (two_digits (day d) ltac:(lia))) as (d1 & d2 & -> & ? & ?).
  destruct (all_digits_2 _ (two_digits (hour d) ltac:(lia))) as (h1 & h2 & -> & ? & ?).
  destruct (all_digits_2 _ (two_digits (minute d) ltac:(lia))) as (n1 & n2 & -> & ? & ?).
  destruct (all_digits_2 _ (two_digits (second d) ltac:(lia))) as (s1 & s2 & -> & ? & ?).
  cbn -[isdigit]. repeat match goal with H : isdigit _ = true |- _ => rewrite H; clear H end.
  reflexivity.
Qed.

End Timestamp.

(* ===================================================================== *)
(** ** The sheet append and the orchestration *)
(* ===================================================================== *)

Section Orchestration.

Lemma str_eqb_eq (a b : str) : str_eqb a b = true <-> a = b.
Proof.
  revert b. induction a as [|x a IH]; intros [|y b]; simpl;
    try (split; [discriminate | congruence]); [tauto |].
  rewrite andb_true_iff, N.eqb_eq, IH. split; [intros [-> ->] | intros H; inversion H]; auto.
Qed.

Lemma str_eqb_refl (a : str) : str_eqb a a = true.
Proof. now apply str_eqb_eq. Qed.

Lemma str_eqb_neq (a b : str) : a <> b -> str_eqb a b = false.
Proof.
  intros H. destruct (str_eqb a b) eqn:E; [| reflexivity].
  apply str_eqb_eq in E. contradiction.
Qed.

(** The spec's end-to-end scenario: a two-page PDF, a model answer in the
    format asked for, a spreadsheet that accepts the row. *)
Example end_to_end_sample :
  let w := execState (main two_page_services sample_config sample_input) sample_world in
  spreadsheets w (py "VR-FOR-SURGERIES")
  = [[py "paper"; []; py "Reduce latency."; py "- AR guidance"; py "- Latency";
      py "2024-03-07 09:05:00"]]
  /\ List.length (model_calls w) = 1
  /\ last (screen w) Balloons = InfoBox (py "**Processed:** 2024-03-07 09:05:01").
Proof. vm_compute. repeat split. Qed.

(** C2, as the code has it: when the spreadsheet service accepts the
    call, [update_sheet] returns [True] and appends exactly one row of six
    fields to the worksheet, in the order document name, document link,
    pps, solutions, to_solve, timestamp, where the three middle fields are
    the parsed fields with leading and trailing whitespace stripped and
    the timestamp has the form YYYY-MM-DD HH:MM:SS; other worksheets, the
    screen and the model are left alone. *)
Theorem update_sheet_appends_stripped_row (sv : services) (sheet : worksheet)
    (i : info) (pdf_name document_link : str) (w : world) (u : unit) :
  gspread_append sv sheet
    (sheet_row i pdf_name document_link (strftime (clock w))) = Ok u ->
  valid_datetime (clock w) ->
  let w' := execState (update_sheet sv sheet i pdf_name document_link) w in
  evalState (update_sheet sv sheet i pdf_name document_link) w = true
  /\ spreadsheets w' sheet
     = spreadsheets w sheet
       ++ [[pdf_name; document_link;
            strip (pps i); strip (solutions i); strip (to_solve i);
            strftime (clock w)]]
  /\ is_timestamp (strftime (clock w)) = true
  /\ (forall other, other <> sheet -> spreadsheets w' other = spreadsheets w other)
  /\ screen w' = screen w
  /\ model_calls w' = model_calls w.
Proof.
  intros Hok Hvalid w'. unfold w', update_sheet, evalState, execState. simpl.
  rewrite Hok. simpl. rewrite str_eqb_refl.
  repeat split; try reflexivity.
  - now apply strftime_shape.
  - intros other Hne. now rewrite str_eqb_neq.
Qed.

Lemma update_sheet_appends_stripped_row_witness :
  spreadsheets
    (execState
       (update_sheet two_page_services (py "VR-FOR-SURGERIES")
          (mkInfo (py "- AR guidance" ++ [NL]) (py "- Latency" ++ [NL])
                  (py "Reduce latency. "))
          (py "paper") (py "https://example.org/doc"))
       sample_world)
    (py "VR-FOR-SURGERIES")
  = [] ++ [[py "paper"; py "https://example.org/doc";
            strip (py "Reduce latency. "); strip (py "- AR guidance" ++ [NL]);
            strip (py "- Latency" ++ [NL]); strftime (clock sample_world)]].
Proof.
  refine (proj1 (proj2 (update_sheet_appends_stripped_row two_page_services
            (py "VR-FOR-SURGERIES")
            (mkInfo (py "- AR guidance" ++ [NL]) (py "- Latency" ++ [NL])
                    (py "Reduce latency. "))
            (py "paper") (py "https://example.org/doc") sample_world tt eq_refl _))).
  vm_compute. repeat split; discriminate.
Defined.

(** C2 as stated fails: the row does not hold the parsed fields exactly.
    For the response of two pps lines, [parse_response] yields a pps field
    that ends in a space, and the row holds it without that space. *)
Lemma sheet_row_not_verbatim :
  pps (parse_response
         (py "Proposed Problem Statement" ++ [NL] ++ py "Reduce latency."
          ++ [NL] ++ py "Improve haptics."))
  = py "Reduce latency. Improve haptics. "
  /\ spreadsheets
       (execState
          (update_sheet two_page_services (py "VR-FOR-SURGERIES")
             (parse_response
                (py "Proposed Problem Statement" ++ [NL] ++ py "Reduce latency."
                 ++ [NL] ++ py "Improve haptics."))
             (py "paper") [])
          sample_world)
       (py "VR-FOR-SURGERIES")
     = [[py "paper"; []; py "Reduce latency. Improve haptics."; []; [];
         py "2024-03-07 09:05:00"]]
  /\ py "Reduce latency. Improve haptics."
     <> pps (parse_response
               (py "Proposed Problem Statement" ++ [NL] ++ py "Reduce latency."
                ++ [NL] ++ py "Improve haptics.")).
Proof. vm_compute. repeat split. discriminate. Qed.

(** Run the monadic glue, and nothing of the stages' payload. *)
Ltac run :=
  cbn [runState bind ret Monad_state MonadState_state get put
       render send_prompt append_row now fst snd
       screen model_calls spreadsheets clock].

(** A PDF of two pages without text yields a newline, which is true for
    [if not pdf_text]: the run goes on to the model. *)
Example two_blank_pages_proceed :
  str_join [NL] [[]; []] = [NL]
  /\ List.length
       (model_calls
          (execState
             (main (mkServices (fun _ => Ok [[]; []]) (fun _ _ => Raise (py "quota"))
                      (fun _ name => Ok name) (fun _ _ => Ok tt) (fun name => name)
                      duplicate_text_area one_second_later)
                   sample_config sample_input)
             sample_world))
     = 1.
Proof. vm_compute. split; reflexivity. Qed.

(** When the spreadsheet service refuses the call, [update_sheet] reports
    it and returns [False]; no worksheet changes. *)
Lemma update_sheet_refused (sv : services) (sheet : worksheet) (i : info)
    (pdf_name document_link e : str) (w : world) :
  gspread_append sv sheet
    (sheet_row i pdf_name document_link (strftime (clock w))) = Raise e ->
  runState (update_sheet sv sheet i pdf_name document_link) w
  = (false, mkWorld (screen w ++ [Error (py "Error updating sheet: " ++ e)])
                    (model_calls w) (spreadsheets w) (next_reading sv (clock w))).
Proof. intros H. unfold update_sheet. simpl. rewrite H. reflexivity. Qed.

(** *** The success screen *)

Lemma str_eqb_false (a b : str) : str_eqb a b = false <-> a <> b.
Proof.
  split.
  - intros H E. apply str_eqb_eq in E. congruence.
  - apply str_eqb_neq.
Qed.

Lemma NoDup_three (a b c : str) :
  NoDup [a; b; c] <-> b <> a /\ c <> a /\ c <> b.
Proof.
  split.
  - intros H. inversion H as [|? ? Ha H']; subst. inversion H' as [|? ? Hb _]; subst.
    simpl in Ha, Hb. repeat split; intros E; subst; tauto.
  - intros (Hba & Hca & Hcb). repeat constructor; simpl; intuition congruence.
Qed.

Lemma NoDup_three_dec (a b c : str) : NoDup [a; b; c] \/ ~ NoDup [a; b; c].
Proof.
  rewrite NoDup_three, <- !str_eqb_false.
  destruct (str_eqb b a), (str_eqb c a), (str_eqb c b);
    (left; repeat split; reflexivity) || (right; intros (? & ? & ?); discriminate).
Qed.

(** With three different values the whole screen is rendered, ending with
    the time read at that moment; the clock has been read once. *)
Lemma show_results_distinct (sv : services) (cfg : config) (i : info)
    (pdf_name : str) (w : world) :
  NoDup [solutions i; to_solve i; pps i] ->
  exists shown,
    runState (show_results sv cfg i pdf_name) w
    = (Ok tt, mkWorld (screen w ++ shown) (model_calls w) (spreadsheets w)
                      (next_reading sv (clock w)))
    /\ existsb is_error shown = false
    /\ progress_values shown = []
    /\ In Balloons shown
    /\ In (TextArea [] (solutions i)) shown
    /\ In (TextArea [] (to_solve i)) shown
    /\ In (TextArea [] (pps i)) shown
    /\ last shown Balloons = InfoBox (py "**Processed:** " ++ strftime (clock w)).
Proof.
  intros H. apply NoDup_three in H as (Hba & Hca & Hcb).
  apply str_eqb_false in Hba, Hca, Hcb.
  unfold show_results, text_area. cbn [existsb]. rewrite Hba, Hca, Hcb. cbn [orb]. run.
  destruct (document_base_link cfg) as [|l ls]; run;
    rewrite <- ?app_assoc; cbn [app];
    (eexists; split; [reflexivity |]);
    (split; [reflexivity |]); (split; [reflexivity |]);
    (split; [cbn [In]; repeat (try (left; reflexivity); right) |]);
    (split; [cbn [In]; repeat (try (left; reflexivity); right) |]);
    (split; [cbn [In]; repeat (try (left; reflexivity); right) |]);
    (split; [cbn [In]; repeat (try (left; reflexivity); right) | reflexivity]).
Qed.

(** With two equal values the second of them raises: the row is in the
    sheet and the balloons are up by then, the clock has not been read,
    and neither the offending text area nor anything after it is shown. *)
Lemma show_results_duplicate (sv : services) (cfg : config) (i : info)
    (pdf_name : str) (w : world) :
  ~ NoDup [solutions i; to_solve i; pps i] ->
  exists value shown,
    runState (show_results sv cfg i pdf_name) w
    = (Raise (duplicate_element_error sv value),
       mkWorld (screen w ++ shown) (model_calls w) (spreadsheets w) (clock w))
    /\ In value [to_solve i; pps i]
    /\ existsb is_error shown = false
    /\ progress_values shown = []
    /\ In Balloons shown
    /\ (forall v, ~ In (InfoBox v) shown).
Proof.
  intros H. unfold show_results, text_area. cbn [existsb]. run.
  assert (Hno : forall xs : list widget,
            (forall v, In (InfoBox v) xs -> False) -> forall v, ~ In (InfoBox v) xs)
    by (intros xs Hx v; exact (Hx v)).
  destruct (str_eqb (to_solve i) (solutions i)) eqn:E1; cbn [orb]; run.
  - exists (to_solve i). rewrite <- ?app_assoc. cbn [app]. eexists.
    split; [reflexivity |]. split; [simpl; auto |].
    split; [reflexivity |]. split; [reflexivity |].
    split; [cbn [In]; repeat (try (left; reflexivity); right) |].
    apply Hno. cbn [In]. intros v Hv.
    repeat (destruct Hv as [Hv | Hv]; [discriminate |]). exact Hv.
  - destruct (str_eqb (pps i) (solutions i) || (str_eqb (pps i) (to_solve i) || false))
      eqn:E2; run.
    + exists (pps i). rewrite <- ?app_assoc. cbn [app]. eexists.
      split; [reflexivity |]. split; [simpl; auto |].
      split; [reflexivity |]. split; [reflexivity |].
      split; [cbn [In]; repeat (try (left; reflexivity); right) |].
      apply Hno. cbn [In]. intros v Hv.
      repeat (destruct Hv as [Hv | Hv]; [discriminate |]). exact Hv.
    + exfalso. apply H. apply NoDup_three.
      rewrite orb_false_r in E2. apply orb_false_iff in E2 as [E2 E3].
      now rewrite <- !str_eqb_false.
Qed.

(** Either way the success screen touches the screen and the clock
    only. *)
Lemma show_results_world (sv : services) (cfg : config) (i : info)
    (pdf_name : str) (w : world) :
  exists r shown d,
    runState (show_results sv cfg i pdf_name) w
    = (r, mkWorld (screen w ++ shown) (model_calls w) (spreadsheets w) d)
    /\ progress_values shown = [].
Proof.
  destruct (NoDup_three_dec (solutions i) (to_solve i) (pps i)) as [H | H].
  - destruct (show_results_distinct sv cfg i pdf_name w H) as (shown & E & _ & P & _).
    eauto 6.
  - destruct (show_results_duplicate sv cfg i pdf_name w H)
      as (value & shown & E & _ & _ & P & _).
    eauto 6.
Qed.

(** X14: one run sends at most one prompt and appends at most one row:
    either no worksheet changes, or one worksheet gains one row at its end
    and every other worksheet stays as it is.  Rows already in a worksheet
    are never changed or removed. *)
Lemma main_only_appends (sv : services) (cfg : config) (inp : ui_input) (w : world) :
  let w' := execState (main sv cfg inp) w in
  (exists sent, model_calls w' = model_calls w ++ sent /\ List.length sent <= 1)
  /\ ((forall s, spreadsheets w' s = spreadsheets w s)
      \/ exists sheet values,
           forall s, spreadsheets w' s
                     = if str_eqb s sheet then spreadsheets w s ++ [values]
                       else spreadsheets w s).
Proof.
  assert (Hnil : forall (A : Type) (l : list A),
             exists more, l = l ++ more /\ List.length more <= 1).
  { intros A l. exists []. rewrite app_nil_r. simpl. auto. }
  assert (Hone : forall (A : Type) (l : list A) (x : A),
             exists more, l ++ [x] = l ++ more /\ List.length more <= 1).
  { intros A l x. exists [x]. simpl. auto. }
  unfold main, execState.
  destruct (uploaded_file inp) as [[name content]|]; run; [| auto].
  destruct (button inp); run; [| auto].
  unfold read_pdf_text. destruct (fitz_pages sv content) as [pages|e]; run; [| auto].
  destruct (str_join [NL] pages) as [|c text]; run; [auto |].
  unfold extract_info_with_gemini. run.
  destruct (generate_content sv (gemini_api_key cfg) _) as [[|c' response]|e];
    run; [auto | | auto].
  unfold setup_google_sheets.
  destruct (gspread_open sv _ _) as [sheet|e]; run; [| auto].
  unfold update_sheet. run.
  destruct (gspread_append sv sheet _) as [u|e]; run; [| auto].
  match goal with
  | |- context [runState (show_results sv cfg ?i ?n) ?w0] =>
      destruct (show_results_world sv cfg i n w0) as (r & shown & d & E & _);
      rewrite E
  end.
  destruct r; run; (split; [auto |]); right; eexists sheet, _; reflexivity.
Qed.

(** The stages before the model call, on the screen. *)
Lemma main_until_extraction (sv : services) (cfg : config) (inp : ui_input)
    (w : world) (name : str) (content : list Byte.byte) :
  uploaded_file inp = Some (name, content) ->
  button inp = true ->
  (evalState (read_pdf_text sv content) w = None
   \/ evalState (read_pdf_text sv content) w = Some []) ->
  exists shown,
    execState (main sv cfg inp) w
    = mkWorld (screen w ++ shown ++ [Error (py "Failed to extract text from PDF")])
              (model_calls w) (spreadsheets w) (clock w).
Proof.
  intros Hfile Hbutton Hread. unfold main, read_pdf_text, evalState, execState in *.
  rewrite Hfile, Hbutton. simpl in *.
  destruct (fitz_pages sv content) as [pages | e]; simpl in *.
  - destruct Hread as [Hread | Hread]; [discriminate |].
    injection Hread as ->. simpl. rewrite <- !app_assoc. simpl.
    eexists (_ :: _ :: _ :: _ :: _ :: _ :: nil). reflexivity.
  - rewrite <- !app_assoc. simpl.
    eexists (_ :: _ :: _ :: _ :: _ :: _ :: _ :: nil). reflexivity.
Qed.

(** C8: when [read_pdf_text] yields no text ([None] or the empty string),
    the run ends with the message "Failed to extract text from PDF": no
    prompt reaches the model and no worksheet gains a row. *)
Theorem extraction_failure_aborts (sv : services) (cfg : config) (inp : ui_input)
    (w : world) (name : str) (content : list Byte.byte) :
  uploaded_file inp = Some (name, content) ->
  button inp = true ->
  (evalState (read_pdf_text sv content) w = None
   \/ evalState (read_pdf_text sv content) w = Some []) ->
  let w' := execState (main sv cfg inp) w in
  model_calls w' = model_calls w
  /\ spreadsheets w' = spreadsheets w
  /\ exists shown,
       screen w' = screen w ++ shown ++ [Error (py "Failed to extract text from PDF")].
Proof.
  intros Hfile Hbutton Hread w'.
  destruct (main_until_extraction sv cfg inp w name content Hfile Hbutton Hread)
    as [shown Hw].
  unfold w'. rewrite Hw. simpl. repeat split. now exists shown.
Qed.

Lemma extraction_failure_aborts_witness :
  model_calls (execState (main corrupt_pdf_services sample_config sample_input) sample_world)
  = model_calls sample_world
  /\ spreadsheets (execState (main corrupt_pdf_services sample_config sample_input) sample_world)
     = spreadsheets sample_world
  /\ exists shown,
       screen (execState (main corrupt_pdf_services sample_config sample_input) sample_world)
       = screen sample_world ++ shown ++ [Error (py "Failed to extract text from PDF")].
Proof.
  exact (extraction_failure_aborts corrupt_pdf_services sample_config sample_input
           sample_world (py "paper.pdf") [] eq_refl eq_refl (or_introl eq_refl)).
Defined.

(** C9: when the decoder succeeds and the joined page texts are the empty
    string, [read_pdf_text] returns that empty string without reporting an
    error, and [main], which tests the text for truthiness, stops with
    "Failed to extract text from PDF" before the summarization stage: the
    screen shows the five elements up to the 20 percent mark and that
    message, and nothing else changes. *)
Theorem empty_text_is_failure (sv : services) (cfg : config) (inp : ui_input)
    (w : world) (name : str) (content : list Byte.byte) (pages : list str) :
  uploaded_file inp = Some (name, content) ->
  button inp = true ->
  fitz_pages sv content = Ok pages ->
  str_join [NL] pages = [] ->
  runState (read_pdf_text sv content) w = (Some [], w)
  /\ execState (main sv cfg inp) w
     = mkWorld
         (screen w
          ++ [Header (128196%N :: py " Upload PDF Document");
              Success (9989%N :: py " File uploaded: " ++ name);
              Progress 0; Placeholder;
              StatusText (128214%N :: py " Reading PDF content...");
              Progress 20;
              Error (py "Failed to extract text from PDF")])
         (model_calls w) (spreadsheets w) (clock w).
Proof.
  intros Hfile Hbutton Hpages Hjoin. unfold main, read_pdf_text, execState.
  rewrite Hfile, Hbutton, Hpages. simpl. rewrite Hjoin. simpl.
  split; [reflexivity |]. now rewrite <- !app_assoc.
Qed.

Lemma empty_text_is_failure_witness :
  model_calls (execState (main blank_pdf_services sample_config sample_input) sample_world)
  = [].
Proof.
  rewrite (proj2 (empty_text_is_failure blank_pdf_services sample_config sample_input
                    sample_world (py "paper.pdf") [] [[]]
                    eq_refl eq_refl eq_refl eq_refl)).
  reflexivity.
Defined.

End Orchestration.

(* ===================================================================== *)
(** ** More on [strip] *)
(* ===================================================================== *)

Section StripFacts.

Lemma lstrip_spaces (s : str) :
  exists ws, s = ws ++ lstrip s /\ Forall (fun c => isspace c = true) ws.
Proof.
  induction s as [|c s [ws [IH Hws]]]; simpl; [now exists [] |].
  destruct (isspace c) eqn:E.
  - exists (c :: ws). simpl. split; [now rewrite <- IH | now constructor].
  - now exists [].
Qed.

Lemma lstrip_fixed (s : str) :
  match s with [] => True | c :: _ => isspace c = false end -> lstrip s = s.
Proof. destruct s as [|c s]; simpl; [reflexivity |]. now intros ->. Qed.

Lemma rstrip_spaces (s : str) :
  exists ws, s = rstrip s ++ ws /\ Forall (fun c => isspace c = true) ws.
Proof.
  unfold rstrip. destruct (lstrip_spaces (rev s)) as [ws [H Hws]].
  exists (rev ws). split.
  - rewrite <- rev_app_distr, <- H. now rewrite rev_involutive.
  - now apply Forall_rev.
Qed.

(** What [strip] returns starts with no whitespace... *)
Lemma strip_head (s : str) :
  match strip s with [] => True | c :: _ => isspace c = false end.
Proof.
  unfold strip. destruct (rstrip_prefix (lstrip s)) as [ws H].
  pose proof (lstrip_head s) as Hh.
  destruct (rstrip (lstrip s)) as [|c t]; [exact I |].
  rewrite H in Hh. exact Hh.
Qed.

(** ... and ends with none. *)
Lemma strip_last (s body : str) (c : char) :
  strip s = body ++ [c] -> isspace c = false.
Proof.
  unfold strip, rstrip. intros H.
  apply (f_equal (@rev char)) in H. rewrite rev_involutive, rev_app_distr in H.
  simpl in H. pose proof (lstrip_head (rev (lstrip s))) as Hh.
  now rewrite H in Hh.
Qed.

Lemma rstrip_fixed (s : str) :
  (forall body c, s = body ++ [c] -> isspace c = false) -> rstrip s = s.
Proof.
  intros H. unfold rstrip. rewrite lstrip_fixed; [apply rev_involutive |].
  destruct (exists_last_or_nil s) as [-> | [body [c ->]]]; [exact I |].
  rewrite rev_app_distr. simpl. now apply (H body c).
Qed.

Lemma strip_idempotent (s : str) : strip (strip s) = strip s.
Proof.
  unfold strip at 1. rewrite (lstrip_fixed (strip s)) by apply strip_head.
  apply rstrip_fixed. intros body c. apply strip_last.
Qed.

Lemma strip_shorter (s : str) : List.length (strip s) <= List.length s.
Proof.
  destruct (strip_occurs s) as [l [r H]]. rewrite H at 2.
  rewrite !length_app. lia.
Qed.

(** A needle that starts with no whitespace, found after leading
    whitespace, lies behind it. *)
Lemma occurs_in_after_spaces (n ws t : str) :
  match n with [] => False | c :: _ => isspace c = false end ->
  Forall (fun c => isspace c = true) ws ->
  occurs_in n (ws ++ t) -> occurs_in n t.
Proof.
  intros Hn Hws. induction Hws as [|c ws Hc _ IH]; [trivial |].
  simpl. intros [l [r H]]. destruct l as [|x l].
  - destruct n as [|y n]; [contradiction |]. simpl in H. injection H as <- _.
    congruence.
  - injection H as _ H. apply IH. now exists l, r.
Qed.

Lemma occurs_in_rev (n h : str) : occurs_in n h -> occurs_in (rev n) (rev h).
Proof.
  intros [l [r ->]]. exists (rev r), (rev l).
  now rewrite !rev_app_distr, <- app_assoc.
Qed.

Lemma occurs_in_before_spaces (n ws t : str) :
  match rev n with [] => False | c :: _ => isspace c = false end ->
  Forall (fun c => isspace c = true) ws ->
  occurs_in n (t ++ ws) -> occurs_in n t.
Proof.
  intros Hn Hws Ho. apply occurs_in_rev in Ho. rewrite rev_app_distr in Ho.
  apply occurs_in_after_spaces in Ho; [| assumption | now apply Forall_rev].
  apply occurs_in_rev in Ho. now rewrite !rev_involutive in Ho.
Qed.

(** Whether a header phrase occurs in a line does not depend on the
    whitespace around the line. *)
Lemma str_in_strip (h l : str) :
  In h headers -> str_in h (strip l) = str_in h l.
Proof.
  intros Hh.
  assert (Hshape : match h with [] => False | c :: _ => isspace c = false end
                   /\ match rev h with [] => False | c :: _ => isspace c = false end).
  { destruct Hh as [<- | [<- | [<- | []]]]; vm_compute; auto. }
  destruct Hshape as [Hfirst Hlast].
  destruct (str_in h l) eqn:E.
  - apply str_in_spec. apply str_in_spec in E.
    unfold strip. destruct (lstrip_spaces l) as [ws1 [H1 Hws1]].
    destruct (rstrip_spaces (lstrip l)) as [ws2 [H2 Hws2]].
    rewrite H1 in E. apply occurs_in_after_spaces in E; [| assumption | assumption].
    rewrite H2 in E. now apply occurs_in_before_spaces in E.
  - apply str_in_false. apply str_in_false in E. intros Ho. apply E.
    exact (occurs_in_trans _ _ _ Ho (strip_occurs l)).
Qed.

Lemma header_of_strip (l : str) : header_of (strip l) = header_of l.
Proof.
  unfold header_of.
  rewrite !str_in_strip by (unfold headers; simpl; auto). reflexivity.
Qed.

Lemma piece_strip (k : key) (l : str) : piece k (strip l) = piece k l.
Proof. unfold piece. now rewrite strip_idempotent. Qed.

End StripFacts.

(* ===================================================================== *)
(** ** More on [parse_response]: what the fields are made of *)
(* ===================================================================== *)

Section FieldContents.

Lemma header_of_phrase (k : key) : header_of (header_phrase k) = Some k.
Proof. destruct k; vm_compute; reflexivity. Qed.

Lemma header_phrase_no_newline (k : key) : ~ In NL (header_phrase k).
Proof. destruct k; vm_compute; intuition discriminate. Qed.

(** The text a run of lines adds to a list field is a run of bullets. *)
Lemma emitted_bullets (k : key) (cur : option key) (lines : list str) :
  k <> Kpps ->
  exists bs,
    emitted k cur lines = List.concat (map (fun b => b ++ [NL]) bs)
    /\ Forall (fun b => startswith [DASH] b = true
                        /\ exists l, In l lines /\ header_of l = None /\ b = strip l) bs.
Proof.
  intros Hk. revert cur. induction lines as [|l ls IH]; intros cur.
  - exists []. now split.
  - assert (Hskip : forall c, exists bs,
              emitted k c ls = List.concat (map (fun b => b ++ [NL]) bs)
              /\ Forall (fun b => startswith [DASH] b = true
                          /\ exists l', In l' (l :: ls) /\ header_of l' = None
                                        /\ b = strip l') bs).
    { intros c. destruct (IH c) as [bs [E Hbs]]. exists bs. split; [exact E |].
      eapply Forall_impl; [| exact Hbs].
      intros b [Hb [l' [Hin [Hh Hl']]]]. split; [exact Hb |].
      exists l'. simpl. auto. }
    simpl. destruct (header_of l) eqn:Hl; [apply Hskip |].
    destruct cur as [c|]; [| apply Hskip].
    destruct (Hskip (Some c)) as [bs [E Hbs]].
    assert (Hadd : exists bs',
              piece k l ++ emitted k (Some c) ls
              = List.concat (map (fun b => b ++ [NL]) bs')
              /\ Forall (fun b => startswith [DASH] b = true
                          /\ exists l', In l' (l :: ls) /\ header_of l' = None
                                        /\ b = strip l') bs').
    { unfold piece. destruct k; try congruence;
        (destruct (startswith [DASH] (strip l)) eqn:Hb;
         [ exists (strip l :: bs); split; [simpl; now rewrite E |];
           constructor; [| exact Hbs]; split; [exact Hb |];
           exists l; simpl; auto
         | exists bs; now split ]). }
    destruct k, c; try congruence; try exact Hadd; exists bs; now split.
Qed.

(** The text a run of lines adds to the pps field: one stripped line and
    a space for each line kept. *)
Lemma emitted_pps_lines (cur : option key) (lines : list str) :
  exists ls,
    emitted Kpps cur lines = List.concat (map (fun l => strip l ++ [SP]) ls)
    /\ Forall (fun l => In l lines /\ header_of l = None) ls.
Proof.
  revert cur. induction lines as [|l ls IH]; intros cur.
  - exists []. now split.
  - assert (Hskip : forall c, exists kept,
              emitted Kpps c ls = List.concat (map (fun l => strip l ++ [SP]) kept)
              /\ Forall (fun l' => In l' (l :: ls) /\ header_of l' = None) kept).
    { intros c. destruct (IH c) as [kept [E Hk]]. exists kept. split; [exact E |].
      eapply Forall_impl; [| exact Hk]. intros l' [Hin Hh]. simpl. auto. }
    simpl. destruct (header_of l) eqn:Hl; [apply Hskip |].
    destruct cur as [[]|]; try apply Hskip.
    destruct (Hskip (Some Kpps)) as [kept [E Hk]].
    exists (l :: kept). split; [simpl; unfold piece; now rewrite E |].
    constructor; [simpl; auto | exact Hk].
Qed.

Lemma fields_hold_input_lines_aux (text : str) :
  (exists bullets, made_of_bullets text (solutions (parse_response text)) bullets)
  /\ (exists bullets, made_of_bullets text (to_solve (parse_response text)) bullets).
Proof.
  pose proof (lookup_parse_response text Ksolutions) as Hs.
  pose proof (lookup_parse_response text Kto_solve) as Ht.
  simpl in Hs, Ht. unfold made_of_bullets. rewrite Hs, Ht.
  split; apply emitted_bullets; discriminate.
Qed.

(** X5: each list field is a run of newline-terminated bullets, every one
    the stripped form of an input line that starts (after stripping) with
    "-" and is no header line; the pps field is a run of stripped input
    lines, each followed by a space.  Nothing else enters a field. *)
Theorem fields_hold_input_lines (text : str) :
  (exists bullets, made_of_bullets text (solutions (parse_response text)) bullets)
  /\ (exists bullets, made_of_bullets text (to_solve (parse_response text)) bullets)
  /\ (exists ls,
        pps (parse_response text) = List.concat (map (fun l => strip l ++ [SP]) ls)
        /\ Forall (fun l => In l (str_split NL text) /\ header_of l = None) ls).
Proof.
  pose proof (lookup_parse_response text Ksolutions) as Hs.
  pose proof (lookup_parse_response text Kto_solve) as Ht.
  pose proof (lookup_parse_response text Kpps) as Hp.
  simpl in Hs, Ht, Hp. unfold made_of_bullets. rewrite Hs, Ht, Hp.
  split; [apply emitted_bullets; discriminate |].
  split; [apply emitted_bullets; discriminate |].
  apply emitted_pps_lines.
Qed.

End FieldContents.

(* ===================================================================== *)
(** ** More on [parse_response]: what does not matter, and what composes *)
(* ===================================================================== *)

Section ParseResponseAlgebra.

Lemma parse_lines_app (a b : list str) (st : info * option key) :
  parse_lines (a ++ b) st = parse_lines b (parse_lines a st).
Proof. unfold parse_lines. apply fold_left_app. Qed.

(** X1: parsing a text that goes on after a newline is going on with the
    loop where the shorter text left it; every field of the shorter text
    is a prefix of the field of the longer one. *)
Theorem parse_response_continues (a b : str) :
  parse_lines (str_split NL (a ++ NL :: b)) start
  = parse_lines (str_split NL b) (parse_lines (str_split NL a) start)
  /\ forall k, exists more,
       lookup (parse_response (a ++ NL :: b)) k = lookup (parse_response a) k ++ more.
Proof.
  split.
  - now rewrite str_split_app, parse_lines_app.
  - intros k. rewrite !lookup_parse_response, str_split_app, emitted_app. eauto.
Qed.

Lemma emitted_header_line (k' k : key) (cur : option key) (line : str) (ls : list str) :
  header_of line = Some k ->
  emitted k' cur (line :: ls) = emitted k' (Some k) ls.
Proof. intros H. simpl. now rewrite H. Qed.

(** X2: whatever else stands on a header line is ignored: the text parses
    as it does with that line replaced by the bare phrase of its section. *)
Theorem header_line_text_ignored (text : str) (before after : list str)
    (line : str) (k : key) :
  str_split NL text = before ++ line :: after ->
  header_of line = Some k ->
  parse_response text
  = parse_response (str_join [NL] (before ++ header_phrase k :: after)).
Proof.
  intros Hs Hl. apply info_ext. intros k'.
  rewrite !lookup_parse_response, Hs.
  rewrite str_split_join.
  - rewrite !emitted_app.
    now rewrite (emitted_header_line k' k _ line after Hl),
                (emitted_header_line k' k _ _ after (header_of_phrase k)).
  - destruct before; discriminate.
  - pose proof (str_split_no_sep NL text) as Hall. rewrite Hs in Hall.
    apply Forall_app in Hall as [Hb Ha]. inversion Ha; subst.
    apply Forall_app. split; [assumption |].
    constructor; [apply header_phrase_no_newline | assumption].
Qed.

Lemma header_line_text_ignored_witness :
  parse_response
    (py "Proposed Problem Statement: Build a trainer." ++ NL :: py "It must be cheap.")
  = parse_response
      (str_join [NL] ([] ++ header_phrase Kpps :: [py "It must be cheap."])).
Proof.
  exact (header_line_text_ignored
           (py "Proposed Problem Statement: Build a trainer." ++ NL :: py "It must be cheap.")
           [] [py "It must be cheap."]
           (py "Proposed Problem Statement: Build a trainer.") Kpps eq_refl eq_refl).
Defined.

Lemma emitted_map_strip (k : key) (cur : option key) (lines : list str) :
  emitted k cur (map strip lines) = emitted k cur lines.
Proof.
  revert cur. induction lines as [|l ls IH]; intros cur; simpl; [reflexivity |].
  rewrite header_of_strip, piece_strip.
  destruct (header_of l); [apply IH |].
  destruct cur as [c|]; [| apply IH].
  destruct k, c; now rewrite IH.
Qed.

(** X3: the whitespace around a line never matters (indentation, trailing
    blanks, the carriage return of a CRLF line end): the text parses as it
    does with every line stripped. *)
Theorem surrounding_whitespace_ignored (text : str) :
  parse_response (str_join [NL] (map strip (str_split NL text)))
  = parse_response text.
Proof.
  apply info_ext. intros k. rewrite !lookup_parse_response.
  rewrite str_split_join.
  - apply emitted_map_strip.
  - pose proof (str_split_nonempty NL text).
    destruct (str_split NL text); [congruence | discriminate].
  - apply Forall_map. eapply Forall_impl; [| apply (str_split_no_sep NL text)].
    intros l Hl. now apply strip_keeps_out.
Qed.

Example crlf_line_ends :
  parse_response
    (py "Existing AR/VR Solutions:" ++ [13%N; NL] ++ py "  - overlay" ++ [13%N; NL]
     ++ py "Proposed Problem Statement:" ++ [13%N; NL] ++ py "Build it." ++ [13%N])
  = mkInfo (py "- overlay" ++ [NL]) [] (py "Build it. ").
Proof. vm_compute. reflexivity. Qed.

(** *** The list fields are in normal form *)

Lemma split_terminated (bs : list str) :
  Forall (fun b => ~ In NL b) bs ->
  str_split NL (List.concat (map (fun b => b ++ [NL]) bs)) = bs ++ [[]].
Proof.
  induction 1 as [|b bs Hb _ IH]; [reflexivity |].
  simpl. rewrite <- app_assoc. simpl.
  now rewrite str_split_app, IH, str_split_whole.
Qed.

(** What the bullets of a field of [text] are like. *)
Lemma bullets_of_text (text field : str) (bullets : list str) :
  made_of_bullets text field bullets ->
  Forall (fun b => ~ In NL b /\ header_of b = None /\ strip b = b
                   /\ startswith [DASH] b = true) bullets.
Proof.
  intros [_ H]. eapply Forall_impl; [| exact H].
  intros b [Hb [l [Hin [Hh ->]]]].
  pose proof (str_split_no_sep NL text) as Hall. rewrite Forall_forall in Hall.
  repeat split.
  - apply strip_keeps_out. now apply Hall.
  - now rewrite header_of_strip.
  - apply strip_idempotent.
  - exact Hb.
Qed.

Lemma reparse_bullets (k : key) (bullets : list str) :
  k <> Kpps ->
  Forall (fun b => ~ In NL b /\ header_of b = None /\ strip b = b
                   /\ startswith [DASH] b = true) bullets ->
  lookup (parse_response
            (header_phrase k ++ NL :: List.concat (map (fun b => b ++ [NL]) bullets))) k
  = List.concat (map (fun b => b ++ [NL]) bullets).
Proof.
  intros Hk Hbs. rewrite lookup_parse_response, str_split_app.
  rewrite (str_split_whole NL (header_phrase k)) by apply header_phrase_no_newline.
  rewrite split_terminated
    by (eapply Forall_impl; [| exact Hbs]; now intros b [H _]).
  change ([header_phrase k] ++ bullets ++ [[]])
    with (header_phrase k :: bullets ++ [[]]).
  rewrite (emitted_header_line k k None _ _ (header_of_phrase k)).
  assert (Hplain : Forall (fun l => header_of l = None) bullets)
    by (eapply Forall_impl; [| exact Hbs]; now intros b [_ [H _]]).
  rewrite emitted_app, (section_of_plain _ _ Hplain), (emitted_plain_same k _ Hplain).
  assert (Hlast : emitted k (Some k) [[]] = []) by (destruct k; congruence || reflexivity).
  rewrite Hlast, app_nil_r. f_equal. apply map_ext_in. intros b Hin.
  rewrite Forall_forall in Hbs. destruct (Hbs b Hin) as [_ [_ [Hstrip Hb]]].
  unfold piece. rewrite Hstrip, Hb. now destruct k.
Qed.

(** X4: a list field is in normal form: parsed again under its header
    phrase, the solutions field comes back as it is, and so does the
    to_solve field. *)
Theorem list_fields_reparse (text : str) :
  solutions (parse_response
               (hdr_solutions ++ NL :: solutions (parse_response text)))
  = solutions (parse_response text)
  /\ to_solve (parse_response
                 (hdr_to_solve ++ NL :: to_solve (parse_response text)))
     = to_solve (parse_response text).
Proof.
  destruct (fields_hold_input_lines_aux text) as [[bs Hs] [bt Ht]].
  split.
  - pose proof (bullets_of_text _ _ _ Hs) as Hb. destruct Hs as [-> _].
    exact (reparse_bullets Ksolutions bs ltac:(discriminate) Hb).
  - pose proof (bullets_of_text _ _ _ Ht) as Hb. destruct Ht as [-> _].
    exact (reparse_bullets Kto_solve bt ltac:(discriminate) Hb).
Qed.

End ParseResponseAlgebra.

(* ===================================================================== *)
(** ** Sizes, and the cells of the row *)
(* ===================================================================== *)

Section SizesAndCells.

Lemma chars_of_split (s : str) :
  chars_with_newlines (str_split NL s) = S (List.length s).
Proof.
  unfold chars_with_newlines. induction s as [|c s IH]; [reflexivity |].
  simpl str_split. destruct (N.eqb c NL).
  - simpl. now rewrite IH.
  - pose proof (str_split_nonempty NL s) as Hne.
    destruct (str_split NL s) as [|p ps]; [congruence |].
    simpl in *. lia.
Qed.

Lemma piece_length (k : key) (l : str) :
  List.length (piece k l) <= S (List.length l).
Proof.
  pose proof (strip_shorter l) as H. unfold piece.
  destruct k; try destruct (startswith [DASH] (strip l));
    rewrite ?length_app; simpl; lia.
Qed.

(** With a section open, the three fields together gain at most the
    characters of the lines and one per line. *)
Lemma emitted_total (cur : option key) (lines : list str) :
  List.length (emitted Ksolutions cur lines)
  + List.length (emitted Kto_solve cur lines)
  + List.length (emitted Kpps cur lines)
  <= chars_with_newlines lines.
Proof.
  unfold chars_with_newlines, list_sum. revert cur.
  induction lines as [|l ls IH]; intros cur; cbn [emitted map fold_right List.length];
    [lia |].
  destruct (header_of l).
  - specialize (IH (Some k)). lia.
  - destruct cur as [c|]; [| specialize (IH None); lia].
    specialize (IH (Some c)).
    pose proof (piece_length c l) as Hp.
    destruct c; rewrite ?length_app; lia.
Qed.

(** From the start, a header line has to be spent before anything is
    kept. *)
Lemma emitted_total_start (lines : list str) :
  List.length (emitted Ksolutions None lines)
  + List.length (emitted Kto_solve None lines)
  + List.length (emitted Kpps None lines)
  <= chars_with_newlines lines - 1.
Proof.
  induction lines as [|l ls IH]; [simpl; lia |].
  cbn [emitted]. destruct (header_of l).
  - pose proof (emitted_total (Some k) ls) as H.
    unfold chars_with_newlines, list_sum in *. cbn [map fold_right]. lia.
  - unfold chars_with_newlines, list_sum in *. cbn [map fold_right]. lia.
Qed.

(** X6: the three fields together are never longer than the response. *)
Theorem fields_no_longer_than_text (text : str) :
  List.length (solutions (parse_response text))
  + List.length (to_solve (parse_response text))
  + List.length (pps (parse_response text))
  <= List.length text.
Proof.
  pose proof (lookup_parse_response text Ksolutions) as Hs.
  pose proof (lookup_parse_response text Kto_solve) as Ht.
  pose proof (lookup_parse_response text Kpps) as Hp.
  simpl in Hs, Ht, Hp. rewrite Hs, Ht, Hp.
  pose proof (emitted_total_start (str_split NL text)) as H.
  rewrite chars_of_split in H. lia.
Qed.

(** *** What [strip] makes of a list field *)

Lemma concat_terminated_join (bs : list str) :
  bs <> [] ->
  List.concat (map (fun b => b ++ [NL]) bs) = str_join [NL] bs ++ [NL].
Proof.
  induction bs as [|b bs IH]; [congruence |]. intros _.
  destruct bs as [|q bs]; [simpl; now rewrite app_nil_r |].
  change (str_join [NL] (b :: q :: bs)) with (b ++ [NL] ++ str_join [NL] (q :: bs)).
  change (List.concat (map (fun b => b ++ [NL]) (b :: q :: bs)))
    with ((b ++ [NL]) ++ List.concat (map (fun b => b ++ [NL]) (q :: bs))).
  rewrite IH by discriminate. now rewrite <- !app_assoc.
Qed.

Lemma join_last_char (bs : list str) :
  bs <> [] ->
  Forall (fun b => exists body c, b = body ++ [c] /\ isspace c = false) bs ->
  exists body c, str_join [NL] bs = body ++ [c] /\ isspace c = false.
Proof.
  induction bs as [|b bs IH]; [congruence |]. intros _ Hall.
  inversion Hall as [|? ? [body [c [Hb Hc]]] Hrest]; subst.
  destruct bs as [|q bs]; [now exists body, c |].
  destruct (IH ltac:(discriminate) Hrest) as [body' [c' [E Hc']]].
  change (str_join [NL] ((body ++ [c]) :: q :: bs))
    with ((body ++ [c]) ++ [NL] ++ str_join [NL] (q :: bs)).
  rewrite E. exists ((body ++ [c]) ++ [NL] ++ body'), c'.
  split; [now rewrite <- !app_assoc | exact Hc'].
Qed.

Lemma join_first_char (bs : list str) (d : char) :
  bs <> [] -> Forall (fun b => startswith [d] b = true) bs ->
  exists t, str_join [NL] bs = d :: t.
Proof.
  destruct bs as [|b bs]; [congruence |]. intros _ Hall.
  inversion Hall as [|? ? Hb _]; subst.
  apply startswith_spec in Hb as [t ->].
  destruct bs; simpl; eauto.
Qed.

(** Stripping a run of newline-terminated bullets leaves the bullets
    joined by newlines. *)
Lemma strip_bullets (bs : list str) :
  Forall (fun b => ~ In NL b /\ header_of b = None /\ strip b = b
                   /\ startswith [DASH] b = true) bs ->
  strip (List.concat (map (fun b => b ++ [NL]) bs)) = str_join [NL] bs.
Proof.
  intros Hbs. destruct bs as [|b0 bs0]; [reflexivity |].
  set (bs := b0 :: bs0) in *.
  assert (Hne : bs <> []) by discriminate.
  rewrite concat_terminated_join by assumption.
  destruct (join_first_char bs DASH Hne) as [t Ht].
  { eapply Forall_impl; [| exact Hbs]. now intros b [_ [_ [_ H]]]. }
  destruct (join_last_char bs Hne) as [body [c [E Hc]]].
  { eapply Forall_impl; [| exact Hbs]. intros b [_ [_ [Hs Hb]]].
    destruct (exists_last_or_nil b) as [-> | [body [c ->]]]; [discriminate |].
    exists body, c. split; [reflexivity |].
    exact (strip_last (body ++ [c]) body c Hs). }
  generalize dependent (str_join [NL] bs). intros J Ht E.
  unfold strip. rewrite lstrip_fixed by (rewrite Ht; reflexivity).
  unfold rstrip. rewrite rev_app_distr. simpl.
  rewrite lstrip_fixed; [apply rev_involutive |].
  rewrite E, rev_app_distr. exact Hc.
Qed.

(** X7: parsing and appending compose: the solutions and to_solve cells
    of the row are the bullets of the field joined by single newlines,
    with no newline after the last one. *)
Theorem list_cells_are_joined_bullets (text pdf_name document_link timestamp : str) :
  exists bs bt,
    made_of_bullets text (solutions (parse_response text)) bs
    /\ made_of_bullets text (to_solve (parse_response text)) bt
    /\ sheet_row (parse_response text) pdf_name document_link timestamp
       = [pdf_name; document_link; strip (pps (parse_response text));
          str_join [NL] bs; str_join [NL] bt; timestamp].
Proof.
  destruct (fields_hold_input_lines_aux text) as [[bs Hs] [bt Ht]].
  exists bs, bt. split; [exact Hs |]. split; [exact Ht |].
  unfold sheet_row.
  pose proof (bullets_of_text _ _ _ Hs) as Hbs.
  pose proof (bullets_of_text _ _ _ Ht) as Hbt.
  destruct Hs as [Es _], Ht as [Et _].
  rewrite Es at 1. rewrite Et at 1.
  now rewrite !strip_bullets.
Qed.

End SizesAndCells.

(* ===================================================================== *)
(** ** More on the stages *)
(* ===================================================================== *)

Section StagesFacts.

(** Run the monadic glue, and nothing of the stages' payload. *)
Ltac go :=
  cbn [runState bind ret Monad_state MonadState_state get put
       render send_prompt append_row now fst snd
       screen model_calls spreadsheets clock].

(** *** [read_pdf_text] *)

Lemma str_join_nil_iff (pages : list str) :
  str_join [NL] pages = [] <-> pages = [] \/ pages = [[]].
Proof.
  destruct pages as [|p [|q ps]]; simpl.
  - tauto.
  - split; [intros ->; now right | intros [H | H]; congruence].
  - split.
    + intros H. destruct p; discriminate.
    + intros [H | H]; discriminate.
Qed.

(** X10: page order is kept: the lines of the extracted text are the
    lines of the first page, then those of the second, and so on. *)
Theorem read_pdf_text_keeps_page_lines (sv : services) (pdf_bytes : list Byte.byte)
    (pages : list str) (w : world) :
  fitz_pages sv pdf_bytes = Ok pages ->
  pages <> [] ->
  exists text,
    runState (read_pdf_text sv pdf_bytes) w = (Some text, w)
    /\ str_split NL text = List.concat (map (str_split NL) pages).
Proof.
  intros Hp Hne. unfold read_pdf_text. rewrite Hp.
  exists (str_join [NL] pages). split; [reflexivity |].
  clear Hp. induction pages as [|p ps IH]; [congruence |].
  destruct ps as [|q ps].
  - simpl. now rewrite app_nil_r.
  - change (str_join [NL] (p :: q :: ps)) with (p ++ NL :: str_join [NL] (q :: ps)).
    rewrite str_split_app, IH by discriminate. reflexivity.
Qed.

Lemma read_pdf_text_keeps_page_lines_witness :
  exists text,
    runState (read_pdf_text two_page_services []) sample_world = (Some text, sample_world)
    /\ str_split NL text
       = List.concat
           (map (str_split NL)
              [py "AR guidance in liver surgery."; py "Latency remains an issue."]).
Proof.
  exact (read_pdf_text_keeps_page_lines two_page_services []
           [py "AR guidance in liver surgery."; py "Latency remains an issue."]
           sample_world eq_refl ltac:(discriminate)).
Defined.

(** *** [extract_info_with_gemini] *)

Lemma slice_to_exact (n : N) (head rest : str) :
  List.length head = N.to_nat n -> slice_to n (head ++ rest) = head.
Proof.
  intros H. unfold slice_to. rewrite <- H.
  rewrite firstn_app, Nat.sub_diag, firstn_all. simpl. apply app_nil_r.
Qed.

(** X12: what follows the first 30,000 characters of the text has no
    influence: two texts that share them lead to the same prompt, the
    same answer and the same effects. *)
Theorem text_beyond_budget_ignored (sv : services) (api_key head rest1 rest2 : str)
    (w : world) :
  List.length head = N.to_nat MAX_CHARS ->
  build_prompt (head ++ rest1) = build_prompt (head ++ rest2)
  /\ runState (extract_info_with_gemini sv (head ++ rest1) api_key) w
     = runState (extract_info_with_gemini sv (head ++ rest2) api_key) w.
Proof.
  intros H.
  assert (E : build_prompt (head ++ rest1) = build_prompt (head ++ rest2))
    by (unfold build_prompt; now rewrite !slice_to_exact).
  split; [exact E |]. unfold extract_info_with_gemini. now rewrite E.
Qed.

Lemma text_beyond_budget_ignored_witness :
  build_prompt (repeat 97%N (N.to_nat 30000) ++ py "first ending")
  = build_prompt (repeat 97%N (N.to_nat 30000) ++ py "another ending").
Proof.
  exact (proj1 (text_beyond_budget_ignored two_page_services []
                  (repeat 97%N (N.to_nat 30000))
                  (py "first ending") (py "another ending") sample_world
                  (repeat_length 97%N (N.to_nat 30000)))).
Defined.

(** X13: the prompt has the 684 characters of the template, those of the
    slice and a newline: never more than 30,685 characters. *)
Theorem prompt_length (text : str) :
  List.length (build_prompt text)
  = 684 + Nat.min (N.to_nat 30000) (List.length text) + 1
  /\ List.length (build_prompt text) <= N.to_nat 30685.
Proof.
  assert (Hhead : List.length prompt_head = 684) by (vm_compute; reflexivity).
  assert (E : List.length (build_prompt text)
              = 684 + Nat.min (N.to_nat 30000) (List.length text) + 1).
  { unfold build_prompt, slice_to, MAX_CHARS.
    rewrite !length_app, Hhead, length_firstn. simpl List.length. lia. }
  split; [exact E |]. rewrite E. lia.
Qed.

(** *** [update_sheet] *)

(** X9: nothing guards against duplicates: a second successful call for
    the same document, at whatever later time, appends a second row that
    differs from the first in the timestamp only. *)
Theorem update_sheet_twice (sv : services) (sheet : worksheet) (i : info)
    (pdf_name document_link : str) (w : world) (later : datetime) (u1 u2 : unit) :
  gspread_append sv sheet
    (sheet_row i pdf_name document_link (strftime (clock w))) = Ok u1 ->
  gspread_append sv sheet
    (sheet_row i pdf_name document_link (strftime later)) = Ok u2 ->
  let w1 := execState (update_sheet sv sheet i pdf_name document_link) w in
  let w2 := execState (update_sheet sv sheet i pdf_name document_link)
                      (with_clock later w1) in
  spreadsheets w2 sheet
  = spreadsheets w sheet
    ++ [sheet_row i pdf_name document_link (strftime (clock w));
        sheet_row i pdf_name document_link (strftime later)]
  /\ firstn 5 (sheet_row i pdf_name document_link (strftime (clock w)))
     = firstn 5 (sheet_row i pdf_name document_link (strftime later)).
Proof.
  intros H1 H2 w1 w2. split; [| reflexivity].
  unfold w2, w1, update_sheet, execState, with_clock. go.
  rewrite H1. go. rewrite H2. go.
  now rewrite !str_eqb_refl, <- app_assoc.
Qed.

Lemma update_sheet_twice_witness :
  spreadsheets
    (execState (update_sheet two_page_services (py "VR-FOR-SURGERIES") empty_info
                  (py "paper") [])
       (with_clock (mkDatetime 2024 3 8 10 0 0)
          (execState (update_sheet two_page_services (py "VR-FOR-SURGERIES") empty_info
                        (py "paper") [])
             sample_world)))
    (py "VR-FOR-SURGERIES")
  = spreadsheets sample_world (py "VR-FOR-SURGERIES")
    ++ [sheet_row empty_info (py "paper") [] (strftime (clock sample_world));
        sheet_row empty_info (py "paper") [] (strftime (mkDatetime 2024 3 8 10 0 0))].
Proof.
  exact (proj1 (update_sheet_twice two_page_services (py "VR-FOR-SURGERIES") empty_info
                  (py "paper") [] sample_world (mkDatetime 2024 3 8 10 0 0) tt tt
                  eq_refl eq_refl)).
Defined.

End StagesFacts.

(* ===================================================================== *)
(** ** More on [main]: every way a run can end *)
(* ===================================================================== *)

Section MainFacts.

Ltac step :=
  cbn [runState bind ret Monad_state MonadState_state get put
       render send_prompt append_row now fst snd
       screen model_calls spreadsheets clock].

(** Bring the screen to the form [screen w ++ [x1; ...; xn]]. *)
Ltac screen_list := rewrite <- ?app_assoc; cbn [app].

(** Replace the run of the success screen by its outcome. *)
Ltac results_world sv cfg :=
  match goal with
  | |- context [runState (show_results sv cfg ?i ?n) ?w0] =>
      let r := fresh "r" in
      let shown := fresh "shown" in
      let d := fresh "d" in
      let Esr := fresh "Esr" in
      let Psr := fresh "Psr" in
      destruct (show_results_world sv cfg i n w0) as (r & shown & d & Esr & Psr);
      rewrite Esr
  end.

Lemma last_app_nonempty {A : Type} (l s : list A) (d : A) :
  s <> [] -> last (l ++ s) d = last s d.
Proof.
  intros Hs. induction l as [|x l IH]; [reflexivity |].
  simpl. rewrite IH. destruct (l ++ s) eqn:E; [| reflexivity].
  apply app_eq_nil in E as [_ E]. contradiction.
Qed.

Lemma progress_values_app (a b : list widget) :
  progress_values (a ++ b) = progress_values a ++ progress_values b.
Proof. unfold progress_values. apply flat_map_app. Qed.

Lemma snoc_neq {A : Type} (l : list A) (x : A) : l ++ [x] <> l.
Proof.
  intros H. apply (f_equal (@List.length A)) in H.
  rewrite length_app in H. simpl in H. lia.
Qed.

(** Once a text has been extracted, its prompt is sent, once, whatever
    the later stages do. *)
Lemma main_sends_prompt (sv : services) (cfg : config) (inp : ui_input) (w : world)
    (name : str) (content : list Byte.byte) (pages : list str) (c : char) (t : str) :
  uploaded_file inp = Some (name, content) ->
  button inp = true ->
  fitz_pages sv content = Ok pages ->
  str_join [NL] pages = c :: t ->
  model_calls (execState (main sv cfg inp) w)
  = model_calls w ++ [build_prompt (c :: t)].
Proof.
  intros Hfile Hbutton Hpages Htext. unfold main, execState.
  rewrite Hfile, Hbutton. step. unfold read_pdf_text. rewrite Hpages. step.
  rewrite Htext. step. unfold extract_info_with_gemini. step.
  destruct (generate_content sv (gemini_api_key cfg) _) as [[|c' response]|e];
    step; [reflexivity | | reflexivity].
  unfold setup_google_sheets.
  destruct (gspread_open sv _ _) as [sheet|e]; step; [| reflexivity].
  unfold update_sheet. step.
  destruct (gspread_append sv sheet _) as [u|e]; step; [| reflexivity].
  results_world sv cfg. destruct r; step; reflexivity.
Qed.

(** X11: when the decoder succeeds, the run is stopped as an extraction
    failure, before any prompt is sent, exactly when the document has no
    page or a single page without text; with two or more pages the joined
    text holds a newline at least and the run goes on. *)
Theorem blank_pdf_rejected_iff (sv : services) (cfg : config) (inp : ui_input)
    (w : world) (name : str) (content : list Byte.byte) (pages : list str) :
  uploaded_file inp = Some (name, content) ->
  button inp = true ->
  fitz_pages sv content = Ok pages ->
  (model_calls (execState (main sv cfg inp) w) = model_calls w
   <-> pages = [] \/ pages = [[]]).
Proof.
  intros Hfile Hbutton Hpages. rewrite <- str_join_nil_iff. split.
  - intros Hcalls. destruct (str_join [NL] pages) as [|c t] eqn:Htext; [reflexivity |].
    rewrite (main_sends_prompt sv cfg inp w name content pages c t) in Hcalls
      by assumption.
    now apply snoc_neq in Hcalls.
  - intros Htext.
    destruct (main_until_extraction sv cfg inp w name content Hfile Hbutton) as [shown ->].
    + right. unfold read_pdf_text, evalState. rewrite Hpages. simpl. now rewrite Htext.
    + reflexivity.
Qed.

Lemma blank_pdf_rejected_iff_witness :
  model_calls (execState (main blank_pdf_services sample_config sample_input) sample_world)
  = model_calls sample_world
  <-> @eq (list str) [[]] [] \/ @eq (list str) [[]] [[]].
Proof.
  exact (blank_pdf_rejected_iff blank_pdf_services sample_config sample_input
           sample_world (py "paper.pdf") [] [[]] eq_refl eq_refl eq_refl).
Defined.

(** X16: when the model raises or answers with the empty string, the run
    stops with "Failed to extract information with AI": the prompt has
    been sent, and no worksheet gains a row. *)
Theorem summarization_failure_aborts (sv : services) (cfg : config) (inp : ui_input)
    (w : world) (name : str) (content : list Byte.byte) (pages : list str) (text : str) :
  uploaded_file inp = Some (name, content) ->
  button inp = true ->
  fitz_pages sv content = Ok pages ->
  str_join [NL] pages = text ->
  text <> [] ->
  ((exists e, generate_content sv (gemini_api_key cfg) (build_prompt text) = Raise e)
   \/ generate_content sv (gemini_api_key cfg) (build_prompt text) = Ok []) ->
  let w' := execState (main sv cfg inp) w in
  model_calls w' = model_calls w ++ [build_prompt text]
  /\ spreadsheets w' = spreadsheets w
  /\ exists shown,
       screen w' = screen w ++ shown
                   ++ [Error (py "Failed to extract information with AI")].
Proof.
  intros Hfile Hbutton Hpages Htext Hne Hgen w'. unfold w', main, execState.
  rewrite Hfile, Hbutton. step. unfold read_pdf_text. rewrite Hpages. step.
  rewrite Htext. destruct text as [|c t]; [congruence |]. step.
  unfold extract_info_with_gemini. step.
  destruct Hgen as [[e ->] | ->]; step; (split; [reflexivity |]); (split; [reflexivity |]);
    screen_list.
  - eexists (_ :: _ :: _ :: _ :: _ :: _ :: _ :: _ :: _ :: nil). reflexivity.
  - eexists (_ :: _ :: _ :: _ :: _ :: _ :: _ :: _ :: nil). reflexivity.
Qed.

Lemma summarization_failure_aborts_witness :
  spreadsheets (execState (main quota_services sample_config sample_input) sample_world)
  = spreadsheets sample_world.
Proof.
  exact (proj1 (proj2 (summarization_failure_aborts quota_services sample_config
           sample_input sample_world (py "paper.pdf") []
           [py "AR guidance in liver surgery."] (py "AR guidance in liver surgery.")
           eq_refl eq_refl eq_refl eq_refl ltac:(discriminate)
           (or_introl (ex_intro _ (py "429 quota exceeded") eq_refl))))).
Defined.

(** X17: when the spreadsheet cannot be opened, the run stops with the
    error of the service and "Failed to setup Google Sheets connection":
    the model has been called, and no worksheet gains a row. *)
Theorem sheet_setup_failure_aborts (sv : services) (cfg : config) (inp : ui_input)
    (w : world) (name : str) (content : list Byte.byte) (pages : list str)
    (text response e : str) :
  uploaded_file inp = Some (name, content) ->
  button inp = true ->
  fitz_pages sv content = Ok pages ->
  str_join [NL] pages = text ->
  text <> [] ->
  generate_content sv (gemini_api_key cfg) (build_prompt text) = Ok response ->
  response <> [] ->
  gspread_open sv (service_account_data cfg) (spreadsheet_name cfg) = Raise e ->
  let w' := execState (main sv cfg inp) w in
  model_calls w' = model_calls w ++ [build_prompt text]
  /\ spreadsheets w' = spreadsheets w
  /\ exists shown,
       screen w' = screen w ++ shown
                   ++ [Error (py "Error setting up Google Sheets: " ++ e);
                       Error (py "Failed to setup Google Sheets connection")].
Proof.
  intros Hfile Hbutton Hpages Htext Hne Hgen Hresp Hopen w'. unfold w', main, execState.
  rewrite Hfile, Hbutton. step. unfold read_pdf_text. rewrite Hpages. step.
  rewrite Htext. destruct text as [|c t]; [congruence |]. step.
  unfold extract_info_with_gemini. step. rewrite Hgen. step.
  destruct response as [|c' r]; [congruence |]. step.
  unfold setup_google_sheets. rewrite Hopen. step.
  split; [reflexivity |]. split; [reflexivity |]. screen_list.
  eexists (_ :: _ :: _ :: _ :: _ :: _ :: _ :: _ :: _ :: _ :: _ :: _ :: nil). reflexivity.
Qed.

Lemma sheet_setup_failure_aborts_witness :
  model_calls (execState (main no_sheet_services sample_config sample_input) sample_world)
  = model_calls sample_world ++ [build_prompt (py "AR guidance in liver surgery.")].
Proof.
  exact (proj1 (sheet_setup_failure_aborts no_sheet_services sample_config
           sample_input sample_world (py "paper.pdf") []
           [py "AR guidance in liver surgery."] (py "AR guidance in liver surgery.")
           (py "Proposed Problem Statement:" ++ NL :: py "Reduce latency.")
           (py "SpreadsheetNotFound")
           eq_refl eq_refl eq_refl eq_refl ltac:(discriminate) eq_refl
           ltac:(discriminate) eq_refl)).
Defined.

(** X18: when the append is refused at the last stage, the run ends with
    the error of the service and the status "Failed to update Google
    Sheet": the model has been called, no worksheet gains a row, and the
    screen holds the sixteen elements below and nothing else, so neither
    the balloons nor any element of the results. *)
Theorem append_failure_reported (sv : services) (cfg : config) (inp : ui_input)
    (w : world) (name : str) (content : list Byte.byte) (pages : list str)
    (text response e : str) (sheet : worksheet) :
  uploaded_file inp = Some (name, content) ->
  button inp = true ->
  fitz_pages sv content = Ok pages ->
  str_join [NL] pages = text ->
  text <> [] ->
  generate_content sv (gemini_api_key cfg) (build_prompt text) = Ok response ->
  response <> [] ->
  gspread_open sv (service_account_data cfg) (spreadsheet_name cfg) = Ok sheet ->
  gspread_append sv sheet
    (sheet_row (parse_response response) (splitext_root sv name)
       (document_base_link cfg) (strftime (clock w))) = Raise e ->
  let w' := execState (main sv cfg inp) w in
  model_calls w' = model_calls w ++ [build_prompt text]
  /\ spreadsheets w' = spreadsheets w
  /\ screen w'
     = screen w
       ++ [Header (128196%N :: py " Upload PDF Document");
           Success (9989%N :: py " File uploaded: " ++ name);
           Progress 0; Placeholder;
           StatusText (128214%N :: py " Reading PDF content...");
           Progress 20;
           StatusText (129302%N :: py " Extracting information with AI...");
           Progress 40;
           StatusText (128221%N :: py " Parsing AI response...");
           Progress 60;
           StatusText (128202%N :: py " Setting up Google Sheets...");
           Progress 80;
           StatusText (9989%N :: py " Updating Google Sheet...");
           Progress 100;
           Error (py "Error updating sheet: " ++ e);
           StatusText (10060%N :: py " Failed to update Google Sheet")].
Proof.
  intros Hfile Hbutton Hpages Htext Hne Hgen Hresp Hopen Happend w'.
  unfold w', main, execState.
  rewrite Hfile, Hbutton. step. unfold read_pdf_text. rewrite Hpages. step.
  rewrite Htext. destruct text as [|c t]; [congruence |]. step.
  unfold extract_info_with_gemini. step. rewrite Hgen. step.
  destruct response as [|c' r]; [congruence |]. step.
  unfold setup_google_sheets. rewrite Hopen. step.
  unfold update_sheet. step. rewrite Happend. step.
  split; [reflexivity |]. split; [reflexivity |]. screen_list. reflexivity.
Qed.

Lemma append_failure_reported_witness :
  spreadsheets
    (execState (main read_only_sheet_services sample_config sample_input) sample_world)
  = spreadsheets sample_world.
Proof.
  exact (proj1 (proj2 (append_failure_reported read_only_sheet_services sample_config
           sample_input sample_world (py "paper.pdf") []
           [py "AR guidance in liver surgery."] (py "AR guidance in liver surgery.")
           (py "Proposed Problem Statement:" ++ NL :: py "Reduce latency.")
           (py "403 forbidden") (py "VR-FOR-SURGERIES")
           eq_refl eq_refl eq_refl eq_refl ltac:(discriminate) eq_refl
           ltac:(discriminate) eq_refl eq_refl))).
Defined.

(** The screen of a run up to the append, for a run that gets there. *)
Lemma main_after_append (sv : services) (cfg : config) (inp : ui_input)
    (w : world) (name : str) (content : list Byte.byte) (pages : list str)
    (text response : str) (sheet : worksheet) (u : unit) :
  uploaded_file inp = Some (name, content) ->
  button inp = true ->
  fitz_pages sv content = Ok pages ->
  str_join [NL] pages = text ->
  text <> [] ->
  generate_content sv (gemini_api_key cfg) (build_prompt text) = Ok response ->
  response <> [] ->
  gspread_open sv (service_account_data cfg) (spreadsheet_name cfg) = Ok sheet ->
  gspread_append sv sheet
    (sheet_row (parse_response response) (splitext_root sv name)
       (document_base_link cfg) (strftime (clock w))) = Ok u ->
  exists before,
    existsb is_error before = false
    /\ progress_values before = [0; 20; 40; 60; 80; 100]
    /\ ~ In Balloons before
    /\ forall r shown d,
         runState (show_results sv cfg (parse_response response) (splitext_root sv name))
           (mkWorld (screen w ++ before) (model_calls w ++ [build_prompt text])
              (fun s => if str_eqb s sheet
                        then spreadsheets w s
                             ++ [sheet_row (parse_response response) (splitext_root sv name)
                                   (document_base_link cfg) (strftime (clock w))]
                        else spreadsheets w s)
              (next_reading sv (clock w)))
         = (r, mkWorld ((screen w ++ before) ++ shown) (model_calls w ++ [build_prompt text])
                 (fun s => if str_eqb s sheet
                           then spreadsheets w s
                                ++ [sheet_row (parse_response response) (splitext_root sv name)
                                      (document_base_link cfg) (strftime (clock w))]
                           else spreadsheets w s)
                 d) ->
         execState (main sv cfg inp) w
         = mkWorld
             (screen w ++ before ++ shown
              ++ match r with
                 | Ok _ => []
                 | Raise msg =>
                     [Error (py "An error occurred: " ++ msg); ProgressEmpty; StatusEmpty]
                 end)
             (model_calls w ++ [build_prompt text])
             (fun s => if str_eqb s sheet
                       then spreadsheets w s
                            ++ [sheet_row (parse_response response) (splitext_root sv name)
                                  (document_base_link cfg) (strftime (clock w))]
                       else spreadsheets w s)
             d.
Proof.
  intros Hfile Hbutton Hpages Htext Hne Hgen Hresp Hopen Happend.
  eexists (_ :: _ :: _ :: _ :: _ :: _ :: _ :: _ :: _ :: _ :: _ :: _ :: _ :: _ :: nil).
  split; [| split; [| split]]; cycle 3.
  - intros r shown d Hshow. unfold main, execState.
    rewrite Hfile, Hbutton. step. unfold read_pdf_text. rewrite Hpages. step.
    rewrite Htext. destruct text as [|c t]; [congruence |]. step.
    unfold extract_info_with_gemini. step. rewrite Hgen. step.
    destruct response as [|c' rest]; [congruence |]. step.
    unfold setup_google_sheets. rewrite Hopen. step.
    unfold update_sheet. step. rewrite Happend. step.
    screen_list. screen_list.
    revert Hshow. screen_list. intros Hshow. rewrite Hshow.
    destruct r; step; screen_list; rewrite ?app_nil_r; reflexivity.
  - reflexivity.
  - reflexivity.
  - cbn [In]. intros H. repeat (destruct H as [H | H]; [discriminate |]). exact H.
Qed.

(** X15: when every stage goes through and the three parsed fields differ
    from one another, the stages compose: the prompt built from the joined
    pages is sent, the row of the parsed answer (with the file name without
    its extension, the configured link and the time read at the append)
    becomes the last row of the worksheet that was opened, no other
    worksheet changes, no error is shown, the progress bar goes through 0,
    20, 40, 60, 80, 100, the three fields are shown, and the screen ends
    with the time of processing, which is the next reading of the clock. *)
Theorem successful_run (sv : services) (cfg : config) (inp : ui_input)
    (w : world) (name : str) (content : list Byte.byte) (pages : list str)
    (text response : str) (sheet : worksheet) (u : unit) :
  uploaded_file inp = Some (name, content) ->
  button inp = true ->
  fitz_pages sv content = Ok pages ->
  str_join [NL] pages = text ->
  text <> [] ->
  generate_content sv (gemini_api_key cfg) (build_prompt text) = Ok response ->
  response <> [] ->
  gspread_open sv (service_account_data cfg) (spreadsheet_name cfg) = Ok sheet ->
  gspread_append sv sheet
    (sheet_row (parse_response response) (splitext_root sv name)
       (document_base_link cfg) (strftime (clock w))) = Ok u ->
  NoDup [solutions (parse_response response); to_solve (parse_response response);
         pps (parse_response response)] ->
  let w' := execState (main sv cfg inp) w in
  model_calls w' = model_calls w ++ [build_prompt text]
  /\ spreadsheets w' sheet
     = spreadsheets w sheet
       ++ [sheet_row (parse_response response) (splitext_root sv name)
             (document_base_link cfg) (strftime (clock w))]
  /\ (forall other, other <> sheet -> spreadsheets w' other = spreadsheets w other)
  /\ exists shown,
       screen w' = screen w ++ shown
       /\ existsb is_error shown = false
       /\ progress_values shown = [0; 20; 40; 60; 80; 100]
       /\ In (TextArea [] (solutions (parse_response response))) shown
       /\ In (TextArea [] (to_solve (parse_response response))) shown
       /\ In (TextArea [] (pps (parse_response response))) shown
       /\ last shown Balloons
          = InfoBox (py "**Processed:** " ++ strftime (next_reading sv (clock w))).
Proof.
  intros Hfile Hbutton Hpages Htext Hne Hgen Hresp Hopen Happend Hdistinct w'.
  destruct (main_after_append sv cfg inp w name content pages text response sheet u
              Hfile Hbutton Hpages Htext Hne Hgen Hresp Hopen Happend)
    as (before & Herr & Hprog & _ & Hmain).
  match type of Hmain with
  | forall r shown d, runState _ ?w0 = _ -> _ =>
      destruct (show_results_distinct sv cfg (parse_response response)
                  (splitext_root sv name) w0 Hdistinct)
        as (shown & E & Herr' & Hprog' & Hb & Hs & Ht & Hp & Hlast)
  end.
  unfold w'. rewrite (Hmain _ _ _ E). cbn [model_calls spreadsheets screen clock].
  split; [reflexivity |].
  split; [now rewrite str_eqb_refl |].
  split; [intros other Hother; now rewrite str_eqb_neq |].
  exists (before ++ shown). rewrite app_nil_r.
  split; [reflexivity |].
  split; [rewrite existsb_app, Herr, Herr'; reflexivity |].
  split; [rewrite progress_values_app, Hprog, Hprog'; reflexivity |].
  split; [apply in_or_app; now right |].
  split; [apply in_or_app; now right |].
  split; [apply in_or_app; now right |].
  rewrite last_app_nonempty; [exact Hlast |].
  intros ->. contradiction.
Qed.

Lemma successful_run_witness :
  spreadsheets
    (execState (main two_page_services sample_config sample_input) sample_world)
    (py "VR-FOR-SURGERIES")
  = spreadsheets sample_world (py "VR-FOR-SURGERIES")
    ++ [sheet_row
          (parse_response
             (str_join [NL]
                [py "Existing AR/VR Solutions:"; py "- AR guidance"; [];
                 py "Problems to be Solved:"; py "- Latency"; [];
                 py "Proposed Problem Statement:"; py "Reduce latency."]))
          (splitext_root two_page_services (py "paper.pdf"))
          (document_base_link sample_config) (strftime (clock sample_world))].
Proof.
  refine (proj1 (proj2 (successful_run two_page_services sample_config
           sample_input sample_world (py "paper.pdf") []
           [py "AR guidance in liver surgery."; py "Latency remains an issue."]
           (str_join [NL] [py "AR guidance in liver surgery."; py "Latency remains an issue."])
           (str_join [NL]
              [py "Existing AR/VR Solutions:"; py "- AR guidance"; [];
               py "Problems to be Solved:"; py "- Latency"; [];
               py "Proposed Problem Statement:"; py "Reduce latency."])
           (py "VR-FOR-SURGERIES") tt
           eq_refl eq_refl eq_refl eq_refl ltac:(discriminate) eq_refl
           ltac:(discriminate) eq_refl eq_refl _))).
  vm_compute. repeat constructor; simpl; intuition discriminate.
Defined.

(** An answer without any header leaves the three fields empty, hence
    equal: the row is appended, the balloons go up, and the run then stops
    at the second text area with "An error occurred". *)
Example run_with_equal_fields :
  let sv := mkServices (fun _ => Ok [py "AR guidance in liver surgery."])
              (fun _ _ => Ok (py "Sorry, I cannot help."))
              (fun _ name => Ok name) (fun _ _ => Ok tt) (fun name => name)
              duplicate_text_area one_second_later in
  let w := execState (main sv sample_config sample_input) sample_world in
  spreadsheets w (py "VR-FOR-SURGERIES")
  = [[py "paper.pdf"; []; []; []; []; py "2024-03-07 09:05:00"]]
  /\ In Balloons (screen w)
  /\ skipn 21 (screen w)
     = [Error (py "An error occurred: There are multiple identical st.text_area widgets");
        ProgressEmpty; StatusEmpty].
Proof.
  vm_compute. split; [reflexivity |]. split; [| reflexivity].
  repeat (try (left; reflexivity); right).
Qed.



(** X20: whatever happens, the values given to the progress bar in a run
    are the first few of 0, 20, 40, 60, 80, 100, in that order, and none
    at all when no file is uploaded or the button is not clicked. *)
Theorem progress_checkpoints (sv : services) (cfg : config) (inp : ui_input) (w : world) :
  let w' := execState (main sv cfg inp) w in
  exists shown n,
    screen w' = screen w ++ shown
    /\ progress_values shown = firstn n [0; 20; 40; 60; 80; 100]
    /\ (uploaded_file inp = None \/ button inp = false -> n = 0).
Proof.
  intros w'. unfold w', main, execState.
  destruct (uploaded_file inp) as [[name content]|]; step.
  2:{ exists [Header (128196%N :: py " Upload PDF Document")], 0. auto. }
  destruct (button inp); step.
  2:{ screen_list. eexists _, 0. split; [reflexivity |]. split; [reflexivity | auto]. }
  assert (Hn' : forall n : nat,
             Some (name, content) = None \/ true = false -> n = 0)
    by (intros n [H | H]; discriminate).
  unfold read_pdf_text. destruct (fitz_pages sv content) as [pages|e]; step.
  2:{ screen_list. eexists _, 2. split; [reflexivity |]. split; [reflexivity | apply Hn']. }
  destruct (str_join [NL] pages) as [|c text]; step.
  { screen_list. eexists _, 2. split; [reflexivity |]. split; [reflexivity | apply Hn']. }
  unfold extract_info_with_gemini. step.
  destruct (generate_content sv (gemini_api_key cfg) _) as [[|c' response]|e]; step.
  1,3: screen_list; eexists _, 3; (split; [reflexivity |]);
       (split; [reflexivity | apply Hn']).
  unfold setup_google_sheets.
  destruct (gspread_open sv _ _) as [sheet|e]; step.
  2:{ screen_list. eexists _, 5. split; [reflexivity |]. split; [reflexivity | apply Hn']. }
  unfold update_sheet. step.
  generalize (parse_response (c' :: response)). intros info_data.
  destruct (gspread_append sv sheet _) as [u|e]; step.
  2:{ screen_list. eexists _, 6. split; [reflexivity |]. split; [reflexivity | apply Hn']. }
  results_world sv cfg.
  destruct r; step; screen_list;
    eexists _, 6; (split; [reflexivity |]); (split; [| apply Hn']);
    cbn [progress_values flat_map app]; fold (progress_values shown);
    rewrite ?progress_values_app, Psr; reflexivity.
Qed.

Lemma progress_checkpoints_witness :
  exists shown n,
    screen (execState (main two_page_services sample_config (mkInput None true))
              sample_world)
    = screen sample_world ++ shown
    /\ progress_values shown = firstn n [0; 20; 40; 60; 80; 100]
    /\ n = 0.
Proof.
  destruct (progress_checkpoints two_page_services sample_config (mkInput None true)
              sample_world) as [shown [n [H1 [H2 H3]]]].
  exists shown, n. split; [exact H1 |]. split; [exact H2 |].
  apply H3. left. reflexivity.
Defined.

End MainFacts.
